(** * RAG-Chatbot: evidence gate, citations and metadata sanitizer

  A shallow embedding of the query CLI (tokenizer, evidence score, evidence
  gate, citation formatting, the per-question step of [main]) and of
  [src/core/metadata.ts] (the Chroma metadata sanitizer), with the
  properties the specification states about them.

  Conventions of the embedding.
  - A JavaScript string is its sequence of UTF-16 code units, [list N].
  - A JavaScript number is an IEEE-754 binary64 value, [spec_float] of the
    Standard Library with precision 53 and maximal exponent 1024.
  - A record used as a dictionary ([Record<string, unknown>]) is the finite
    map of its own enumerable properties, a [gmap] keyed by strings.
  - Built-ins whose tables are not part of the repository (Unicode case
    conversion beyond ASCII, shortest round-trip printing of numbers that
    are not safe integers) are fields of the class [Host]; every theorem
    holds for every host. *)

From Stdlib Require Import ZArith NArith List Bool Lia Ascii String.
From Stdlib Require Import Numbers.DecimalString Floats.SpecFloat.
From stdpp Require Import base option list gmap.

Set Default Proof Using "Type".
Local Set Warnings "-register-all".
Local Open Scope N_scope.

(** ** Strings as sequences of UTF-16 code units *)

Abbreviation jsstring := (list N).

(** A literal of the source, all of whose characters are ASCII. *)
Definition str (s : string) : jsstring :=
  List.map N_of_ascii (list_ascii_of_string s).

(** [Array.prototype.join] on an array of strings. *)
Fixpoint join (sep : jsstring) (parts : list jsstring) : jsstring :=
  match parts with
  | [] => []
  | [p] => p
  | p :: rest => p ++ sep ++ join sep rest
  end.

(** The class [\s] of a regular expression without the [u] flag, which is
    also what [String.prototype.trim] strips: WhiteSpace and LineTerminator
    of ECMA-262. *)
Definition isWhiteSpace (c : N) : bool :=
  ((9 <=? c) && (c <=? 13))
  || (c =? 32) || (c =? 160) || (c =? 5760)
  || ((8192 <=? c) && (c <=? 8202))
  || (c =? 8232) || (c =? 8233) || (c =? 8239) || (c =? 8287)
  || (c =? 12288) || (c =? 65279).

(** The class [[a-z0-9]]. *)
Definition isLowerAlnum (c : N) : bool :=
  ((97 <=? c) && (c <=? 122)) || ((48 <=? c) && (c <=? 57)).

Definition isAscii (c : N) : bool := c <? 128.

Definition asciiLower (c : N) : N :=
  if (65 <=? c) && (c <=? 90) then c + 32 else c.

Fixpoint dropWhile {A} (p : A -> bool) (l : list A) : list A :=
  match l with
  | [] => []
  | x :: l' => if p x then dropWhile p l' else l
  end.

(** [String.prototype.trim]. *)
Definition trim (s : jsstring) : jsstring :=
  rev (dropWhile isWhiteSpace (rev (dropWhile isWhiteSpace s))).

(** [s.startsWith(t)] and [s.includes(t)]: substring search on code units. *)
Fixpoint startsWith (s t : jsstring) : bool :=
  match t, s with
  | [], _ => true
  | _ :: _, [] => false
  | a :: t', b :: s' => (a =? b) && startsWith s' t'
  end.

Fixpoint includes (hay needle : jsstring) : bool :=
  startsWith hay needle ||
  match hay with
  | [] => false
  | _ :: hay' => includes hay' needle
  end.

(** [s.split(/\s+/)]: the pieces between the maximal runs of white space.
    A run at the very start or the very end of the string leaves an empty
    piece there, and the empty string splits into one empty piece.
    [inRun] records that the previous code unit belonged to a separator. *)
Fixpoint splitRuns (inRun : bool) (cur : jsstring) (s : jsstring)
  : list jsstring :=
  match s with
  | [] => [cur]
  | c :: s' =>
      if isWhiteSpace c
      then (if inRun then splitRuns true [] s' else cur :: splitRuns true [] s')
      else splitRuns false (cur ++ [c]) s'
  end.

Definition splitWhitespace (s : jsstring) : list jsstring :=
  splitRuns false [] s.

(** [Array.from(new Set(xs))]: a [Set] keeps its elements in insertion order
    and adding an element that is already present changes nothing. *)
Section JsSet.
Context {A : Type} `{EqDecision A}.

Definition Set_add (s : list A) (x : A) : list A :=
  if bool_decide (x ∈ s) then s else s ++ [x].

Definition Set_from (xs : list A) : list A := fold_left Set_add xs [].

End JsSet.

(** ** Numbers *)

Abbreviation number := spec_float.

Definition prec : Z := 53.
Definition emax : Z := 1024.

(** The number whose value is the integer [z] (rounded when it does not fit
    in 53 bits). *)
Definition Number_of_Z (z : Z) : number := binary_normalize prec emax z 0 false.
Definition Number_of_nat (n : nat) : number := Number_of_Z (Z.of_nat n).

(** The operators [/], [<] and [>=] on numbers. *)
Definition Number_div (x y : number) : number := SFdiv prec emax x y.
Definition Number_lt (x y : number) : bool := SFltb x y.
Definition Number_ge (x y : number) : bool := SFleb y x.

(** [Number.isFinite] on a value that is a number. *)
Definition Number_isFinite (x : number) : bool :=
  match x with
  | S754_zero _ | S754_finite _ _ _ => true
  | S754_infinity _ | S754_nan => false
  end.

Definition isNaN (x : number) : bool :=
  match x with S754_nan => true | _ => false end.

(** The integer a finite number denotes, when it denotes one. *)
Definition integerValue (x : number) : option Z :=
  match x with
  | S754_zero _ => Some 0%Z
  | S754_finite s m e =>
      let mag :=
        match e with
        | Z0 => Some (Zpos m)
        | Zpos p => Some (Z.shiftl (Zpos m) (Zpos p))
        | Zneg p =>
            if (Z.land (Zpos m) (Z.ones (Zpos p)) =? 0)%Z
            then Some (Z.shiftr (Zpos m) (Zpos p)) else None
        end in
      (fun v => if s then Z.opp v else v) <$> mag
  | _ => None
  end.

Definition decimal (n : N) : jsstring :=
  str (NilEmpty.string_of_uint (N.to_uint n)).

(** ** JavaScript values *)

Inductive JSValue :=
| VUndefined
| VNull
| VBoolean (b : bool)
| VNumber (x : number)
| VString (s : jsstring)
| VBigInt (z : Z)
| VSymbol
| VFunction
| VError (stack : option jsstring) (message : jsstring)
| VArray (items : list JSValue)
| VObject (props : list (jsstring * JSValue)).

(** A [Record<string, unknown>]: its own enumerable properties. *)
Abbreviation Meta := (gmap jsstring JSValue).

(** [obj[key]] on a plain record: a missing property reads [undefined]. *)
Definition getProp (obj : Meta) (key : jsstring) : JSValue :=
  default VUndefined (obj !! key).

(** [obj[key] = value] on an object created by the literal [{}], for a
    [value] that is not an object: the key [__proto__] reaches the setter
    inherited from [Object.prototype], which creates no own property; every
    other key becomes (or updates) an own property. *)
Definition setProp (obj : Meta) (key : jsstring) (value : JSValue) : Meta :=
  if bool_decide (key = str "__proto__") then obj else <[key := value]> obj.

(** A LangChain [Document<Meta>]; [metadata] is [None] when the field is
    [null] or [undefined]. *)
Record Document := {
  pageContent : jsstring;
  metadata : option Meta;
}.

(** Abrupt and normal completion of a call. *)
Inductive completion (A : Type) :=
| Normal (a : A)
| Throw (reason : jsstring).
Arguments Normal {A} a.
Arguments Throw {A} reason.

(** ** The host: built-ins that depend on tables outside the repository *)

Class Host := {
  (** [String.prototype.toLowerCase] on a string with a non-ASCII code unit
      (Unicode default case conversion). *)
  unicodeToLowerCase : jsstring -> jsstring;
  (** [Number::toString] on a finite number that is not an integer of
      magnitude below 2^53 (shortest round-trip digits). *)
  shortestDecimal : number -> jsstring;
}.

(** A host for evaluating examples; it is consulted only outside the ASCII
    and safe-integer fragments. *)
Definition asciiHost : Host :=
  {| unicodeToLowerCase := fun s => List.map asciiLower s;
     shortestDecimal := fun _ => str "?" |}.

(** ** The query CLI *)

Definition NO_EVIDENCE_MESSAGE : jsstring :=
  str "I could not find sufficient evidence in the provided documents (PDF/TXT) to answer your question.".

(** The literal [0.45]: the binary64 number nearest to 45/100, which is
    8106479329266893 * 2^-54. *)
Definition MIN_OVERLAP_RATIO : number :=
  S754_finite false 8106479329266893 (-54).
Definition MIN_MATCHED_TOKENS : nat := 1.
Definition TOP_SOURCES_FOR_SCORING : nat := 3.

Record EvidenceScore := {
  matchedTokens : nat;
  totalTokens : nat;
  overlapRatio : number;
}.

Section WithHost.
Context `{Host}.

(** [String.prototype.toLowerCase]: on ASCII text, [A-Z] become [a-z]. *)
Definition toLowerCase (s : jsstring) : jsstring :=
  if forallb isAscii s then List.map asciiLower s else unicodeToLowerCase s.

(** [Number::toString], radix 10. *)
Definition Number_toString (x : number) : jsstring :=
  match x with
  | S754_nan => str "NaN"
  | S754_infinity false => str "Infinity"
  | S754_infinity true => str "-Infinity"
  | S754_zero _ => str "0"
  | S754_finite s _ _ =>
      match integerValue x with
      | Some z =>
          if (Z.abs z <? 2 ^ 53)%Z
          then (if s then str "-" else []) ++ decimal (Z.abs_N z)
          else shortestDecimal x
      | None => shortestDecimal x
      end
  end.

Definition getString (meta : Meta) (key : jsstring) : option jsstring :=
  match getProp meta key with
  | VString v => Some v
  | _ => None
  end.

Definition getNumber (meta : Meta) (key : jsstring) : option number :=
  match getProp meta key with
  | VNumber v => if Number_isFinite v then Some v else None
  | _ => None
  end.

Definition formatCite (meta : Meta) : jsstring :=
  let filename := default (str "unknown") (getString meta (str "filename")) in
  match getNumber meta (str "page") with
  | Some page =>
      str "[" ++ filename ++ str " p." ++ Number_toString page ++ str "]"
  | None => str "[" ++ filename ++ str "]"
  end.

(** The label of one retrieved chunk: [formatCite((d.metadata ?? {}))]. *)
Definition citeOf (d : Document) : jsstring :=
  formatCite (default ∅ (metadata d)).

Definition extractCitations (docs : list Document) : list jsstring :=
  Set_from (List.map citeOf docs).

(** The citation list of [main]: [extractCitations(retrieved).slice(0, 5)]. *)
Definition citations (docs : list Document) : list jsstring :=
  firstn 5 (extractCitations docs).

Definition buildContext (docs : list Document) : jsstring :=
  join [10; 10]
    (imap (fun i d =>
             str "Source " ++ decimal (N.of_nat (i + 1)) ++ str " "
             ++ citeOf d ++ [10] ++ pageContent d) docs).

(** [.replace(/[^a-z0-9\s]/g, ' ')] *)
Definition replaceNonWord (s : jsstring) : jsstring :=
  List.map (fun c => if isLowerAlnum c || isWhiteSpace c then c else 32) s.

Definition tokenize (text : jsstring) : list jsstring :=
  List.filter (fun t => (3 <=? length t)%nat)
    (List.map trim (splitWhitespace (replaceNonWord (toLowerCase text)))).

(** The evidence haystack of [evidenceScore]. *)
Definition haystack (docs : list Document) : jsstring :=
  toLowerCase
    (join (str " ")
       (List.map (fun d => firstn 1600 (pageContent d))
          (firstn TOP_SOURCES_FOR_SCORING docs))).

(** The loop [for (const t of qTokens) if (hay.includes(t)) matchedTokens += 1]. *)
Definition countMatches (hay : jsstring) (qTokens : list jsstring) : nat :=
  fold_left (fun matched t => if includes hay t then (matched + 1)%nat else matched)
    qTokens 0%nat.

Definition evidenceScore (question : jsstring) (docs : list Document)
  : EvidenceScore :=
  let qTokens := Set_from (tokenize question) in
  let total := length qTokens in
  if (total =? 0)%nat then
    {| matchedTokens := 0; totalTokens := 0; overlapRatio := S754_zero false |}
  else
    let hay := haystack docs in
    let matched := countMatches hay qTokens in
    {| matchedTokens := matched; totalTokens := total;
       overlapRatio := Number_div (Number_of_nat matched) (Number_of_nat total) |}.

Definition hasEnoughEvidence (question : jsstring) (docs : list Document)
  : bool :=
  if (length docs <? 2)%nat then false
  else
    let s := evidenceScore question docs in
    if (matchedTokens s <? MIN_MATCHED_TOKENS)%nat then false
    else if Number_lt (overlapRatio s) MIN_OVERLAP_RATIO then false
    else true.

(** *** [Number.prototype.toFixed] *)

(** The integer [n] for which [n / 10^f] is nearest to [m * 2^e], the larger
    one when two are equally near. *)
Definition scaledNearest (f : nat) (m : positive) (e : Z) : Z :=
  let p := (10 ^ Z.of_nat f)%Z in
  match e with
  | Zneg d => ((2 * Zpos m * p + 2 ^ Zpos d) / 2 ^ (Zpos d + 1))%Z
  | _ => (Zpos m * 2 ^ e * p)%Z
  end.

Definition atLeast1e21 (m : positive) (e : Z) : bool :=
  match e with
  | Zneg d => (10 ^ 21 <=? Zpos m / 2 ^ Zpos d)%Z
  | _ => (10 ^ 21 <=? Zpos m * 2 ^ e)%Z
  end.

Definition fixedDigits (f : nat) (n : Z) : jsstring :=
  let m := decimal (Z.to_N n) in
  if (f =? 0)%nat then m
  else
    let m := repeat 48 (f + 1 - length m) ++ m in
    let k := length m in
    firstn (k - f) m ++ str "." ++ skipn (k - f) m.

Definition Number_toFixed (x : number) (f : nat) : jsstring :=
  match x with
  | S754_nan | S754_infinity _ => Number_toString x
  | S754_zero _ => fixedDigits f 0
  | S754_finite s m e =>
      (if s then str "-" else [])
      ++ (if atLeast1e21 m e then Number_toString (S754_finite false m e)
          else fixedDigits f (scaledNearest f m e))
  end.

(** *** One question of [main] *)

(** What the step does to the outside world, in order. *)
Inductive Event :=
| ConsoleLog (line : jsstring)
| SimilaritySearch (query : jsstring) (k : number)
| LlmInvoke (system user : jsstring).

(** A computation that emits events and then completes or throws. *)
Definition IO (A : Type) : Type := list Event * completion A.

#[local] Instance IO_ret : MRet IO := fun A a => ([], Normal a).
#[local] Instance IO_bind : MBind IO := fun A B f m =>
  match m with
  | (t, Normal a) => let '(t', r) := f a in (t ++ t', r)
  | (t, Throw e) => (t, Throw e)
  end.

Definition consoleLog (line : jsstring) : IO unit :=
  ([ConsoleLog line], Normal tt).

Fixpoint forEach {A} (f : A -> IO unit) (l : list A) : IO unit :=
  match l with
  | [] => mret tt
  | x :: l' => f x ;; forEach f l'
  end.

Section Step.
(** The two external collaborators: the vector store and the chat model
    (the text of [resp.content]). Either call may fail. *)
Variable store : jsstring -> number -> completion (list Document).
Variable llm : jsstring -> jsstring -> completion jsstring.

Definition similaritySearch (query : jsstring) (k : number)
  : IO (list Document) :=
  ([SimilaritySearch query k], store query k).

Definition invoke (system user : jsstring) : IO jsstring :=
  ([LlmInvoke system user], llm system user).

Definition systemPrompt : jsstring :=
  join (str " ")
    [ str "You are a strict RAG assistant.";
      str "Use only the provided sources as evidence.";
      str "If the sources do not contain enough information to answer, say so clearly.";
      str "Do not use outside knowledge.";
      str "Do not fabricate citations." ].

Definition userPrompt (question context : jsstring) : jsstring :=
  join [10]
    [ str "Question: " ++ question;
      [];
      str "Sources:";
      context;
      [];
      str "Output format:";
      str "[Answer]";
      str "(Concise, grounded strictly in the sources. Do not include a citations section.)" ].

(** The two diagnostic lines, [`Retrieved chunks: ${retrieved.length}`] and
    [`Evidence score: matchedTokens=..., totalTokens=..., overlapRatio=...`]. *)
Definition retrievedLine (retrieved : list Document) : jsstring :=
  str "Retrieved chunks: " ++ decimal (N.of_nat (length retrieved)).

Definition scoreLine (score : EvidenceScore) : jsstring :=
  str "Evidence score: matchedTokens="
  ++ decimal (N.of_nat (matchedTokens score))
  ++ str ", totalTokens=" ++ decimal (N.of_nat (totalTokens score))
  ++ str ", overlapRatio=" ++ Number_toFixed (overlapRatio score) 3.

(** The body of the [while] loop of [main] from the retrieval on, for a
    non-empty [question] and a parsed retrieval depth [k]. Both ways out of
    it lead to the next prompt. *)
Definition processQuestion (question : jsstring) (k : number) : IO unit :=
  consoleLog (str "Retrieving sources...") ;;
  retrieved ← similaritySearch question k ;
  consoleLog (retrievedLine retrieved) ;;
  let score := evidenceScore question retrieved in
  consoleLog (scoreLine score) ;;
  if negb (hasEnoughEvidence question retrieved) then
    consoleLog NO_EVIDENCE_MESSAGE ;;
    consoleLog []
  else
    let context := buildContext retrieved in
    let citations := citations retrieved in
    consoleLog (str "Generating answer...") ;;
    resp ← invoke systemPrompt (userPrompt question context) ;
    consoleLog (trim resp) ;;
    consoleLog [] ;;
    consoleLog (str "[Citations]") ;;
    forEach (fun c => consoleLog (str "- " ++ c)) citations ;;
    consoleLog [].

End Step.

End WithHost.

(** The lines written to the console and the calls of the chat model in a
    trace. *)
Definition consoleLines (t : list Event) : list jsstring :=
  omap (fun ev => match ev with ConsoleLog l => Some l | _ => None end) t.

Definition llmCalls (t : list Event) : nat :=
  length (List.filter
            (fun ev => match ev with LlmInvoke _ _ => true | _ => false end) t).

(** ** The metadata sanitizer ([src/core/metadata.ts]) *)

Definition isPrimitive (value : JSValue) : bool :=
  match value with
  | VNull | VString _ | VNumber _ | VBoolean _ => true
  | _ => false
  end.

(** [Object.prototype.toString.call(value)]. *)
Definition objectToString (value : JSValue) : jsstring :=
  match value with
  | VUndefined => str "[object Undefined]"
  | VNull => str "[object Null]"
  | VBoolean _ => str "[object Boolean]"
  | VNumber _ => str "[object Number]"
  | VString _ => str "[object String]"
  | VBigInt _ => str "[object BigInt]"
  | VSymbol => str "[object Symbol]"
  | VFunction => str "[object Function]"
  | VError _ _ => str "[object Error]"
  | VArray _ => str "[object Array]"
  | VObject _ => str "[object Object]"
  end.

(** *** [JSON.stringify] *)

Definition hexDigit (d : N) : N := if d <? 10 then 48 + d else 87 + d.

(** The escape [\uXXXX] with lower-case digits. *)
Definition unicodeEscape (c : N) : jsstring :=
  [92; 117; hexDigit (c / 4096 mod 16); hexDigit (c / 256 mod 16);
   hexDigit (c / 16 mod 16); hexDigit (c mod 16)].

Definition isLeadSurrogate (c : N) : bool := (55296 <=? c) && (c <=? 56319).
Definition isTrailSurrogate (c : N) : bool := (56320 <=? c) && (c <=? 57343).

Definition escapeUnit (c : N) : jsstring :=
  if c =? 8 then str "\b"
  else if c =? 9 then str "\t"
  else if c =? 10 then str "\n"
  else if c =? 12 then str "\f"
  else if c =? 13 then str "\r"
  else if c =? 34 then [92; 34]
  else if c =? 92 then [92; 92]
  else if c <? 32 then unicodeEscape c
  else [c].

Fixpoint quoteUnits (s : jsstring) : jsstring :=
  match s with
  | [] => []
  | c :: s' =>
      if isLeadSurrogate c then
        match s' with
        | d :: s'' =>
            if isTrailSurrogate d then c :: d :: quoteUnits s''
            else unicodeEscape c ++ quoteUnits s'
        | [] => unicodeEscape c
        end
      else if isTrailSurrogate c then unicodeEscape c ++ quoteUnits s'
      else escapeUnit c ++ quoteUnits s'
  end.

Definition QuoteJSONString (s : jsstring) : jsstring :=
  [34] ++ quoteUnits s ++ [34].

(** The elements of an array and the members of an object, given the
    serialization of one value: an element without serialization is written
    [null], a member without serialization is left out. *)
Section SerializeParts.
Variable serialize : JSValue -> completion (option jsstring).

Fixpoint serializeElements (l : list JSValue) : completion (list jsstring) :=
  match l with
  | [] => Normal []
  | x :: l' =>
      match serialize x with
      | Throw e => Throw e
      | Normal o =>
          match serializeElements l' with
          | Throw e => Throw e
          | Normal r => Normal (default (str "null") o :: r)
          end
      end
  end.

Fixpoint serializeMembers (l : list (jsstring * JSValue))
  : completion (list jsstring) :=
  match l with
  | [] => Normal []
  | (k, x) :: l' =>
      match serialize x with
      | Throw e => Throw e
      | Normal o =>
          match serializeMembers l' with
          | Throw e => Throw e
          | Normal r =>
              Normal
                (match o with
                 | Some text => (QuoteJSONString k ++ str ":" ++ text) :: r
                 | None => r
                 end)
          end
      end
  end.

End SerializeParts.

Section Sanitizer.
Context `{Host}.

(** [SerializeJSONProperty] without replacer and indentation: [Normal None]
    is the result [undefined], [Throw] the [TypeError] raised for a BigInt.
    An [Error] has no enumerable property of its own and serializes as an
    empty object. The call of a [toJSON] method is not part of it: it is
    what [JSON.stringify] does on the values without one ([hasToJSON],
    below). *)
Fixpoint SerializeJSONProperty (value : JSValue)
  : completion (option jsstring) :=
  match value with
  | VUndefined | VSymbol | VFunction => Normal None
  | VNull => Normal (Some (str "null"))
  | VBoolean b => Normal (Some (if b then str "true" else str "false"))
  | VNumber x =>
      Normal (Some (if Number_isFinite x then Number_toString x else str "null"))
  | VString s => Normal (Some (QuoteJSONString s))
  | VBigInt _ => Throw (str "TypeError")
  | VError _ _ => Normal (Some (str "{}"))
  | VArray items =>
      match serializeElements SerializeJSONProperty items with
      | Throw e => Throw e
      | Normal parts => Normal (Some (str "[" ++ join (str ",") parts ++ str "]"))
      end
  | VObject props =>
      match serializeMembers SerializeJSONProperty props with
      | Throw e => Throw e
      | Normal parts => Normal (Some (str "{" ++ join (str ",") parts ++ str "}"))
      end
  end.

(** [JSON.stringify(value)] as a value: a string or [undefined]. *)
Definition JSON_stringify (value : JSValue) : completion JSValue :=
  match SerializeJSONProperty value with
  | Normal (Some text) => Normal (VString text)
  | Normal None => Normal VUndefined
  | Throw e => Throw e
  end.

(** [safeToString]. Its declared result type is [string]; the result is the
    value the body returns. *)
Definition safeToString (value : JSValue) : JSValue :=
  match value with
  | VString s => VString s
  | VNumber x => VString (Number_toString x)
  | VBoolean b => VString (if b then str "true" else str "false")
  | VError stack message => VString (default message stack)
  | _ =>
      match JSON_stringify value with
      | Normal r => r
      | Throw _ => VString (objectToString value)
      end
  end.

(** One turn of the loop over [Object.entries(input)]. *)
Definition sanitizeEntry (key : jsstring) (value : JSValue) (out : Meta)
  : Meta :=
  match value with
  | VUndefined => out
  | _ =>
      if isPrimitive value then setProp out key value
      else setProp out key (safeToString value)
  end.

Definition sanitizeForChromaMetadata (input : Meta) : Meta :=
  map_fold sanitizeEntry ∅ input.

End Sanitizer.

(** A [ChromaMetadataValue]: [string | number | boolean | null]. *)
Definition isChromaMetadataValue (value : JSValue) : bool :=
  match value with
  | VString _ | VNumber _ | VBoolean _ | VNull => true
  | _ => false
  end.

(** ** Definitions that follow the words of the specification *)

Definition nonEmpty (t : jsstring) : bool :=
  match t with [] => false | _ => true end.

(** "Split on whitespace runs": the maximal runs of code units that are not
    white space, in order. *)
Fixpoint wordsFrom (cur : jsstring) (s : jsstring) : list jsstring :=
  match s with
  | [] => match cur with [] => [] | _ => [cur] end
  | c :: s' =>
      if isWhiteSpace c
      then match cur with
           | [] => wordsFrom [] s'
           | _ => cur :: wordsFrom [] s'
           end
      else wordsFrom (cur ++ [c]) s'
  end.

(** Specification 4.2: lowercase, replace every character outside
    [[a-z0-9]] and white space with a space, split on whitespace runs, trim
    each piece, drop the tokens shorter than 3 characters. *)
Definition specTokenize `{Host} (text : jsstring) : list jsstring :=
  List.filter (fun t => (3 <=? length t)%nat)
    (List.map trim
       (wordsFrom []
          (List.map (fun c => if isLowerAlnum c || isWhiteSpace c then c else 32)
             (toLowerCase text)))).

(** "Deduplicated while preserving first-occurrence order": an element stays
    exactly when it does not occur earlier in the list. *)
Definition firstOccurrences {A} `{EqDecision A} (l : list A) : list A :=
  omap id
    (imap (fun i x => if bool_decide (x ∈ take i l) then None else Some x) l).

(** The numbers 0.6 and 0.4 of binary64. *)
Definition ratio_0_6 : number := S754_finite false 5404319552844595 (-53).
Definition ratio_0_4 : number := S754_finite false 7205759403792794 (-54).

Definition zeroScore : EvidenceScore :=
  {| matchedTokens := 0; totalTokens := 0; overlapRatio := S754_zero false |}.

(** What one value becomes: [None] when its key is dropped. *)
Definition sanitizeValue `{Host} (value : JSValue) : option JSValue :=
  match value with
  | VUndefined => None
  | _ => Some (if isPrimitive value then value else safeToString value)
  end.


(** ** Sample data for the worked examples *)

Definition boilingQuestion : jsstring :=
  str "What is the boiling point of water".

Definition meltingQuestion : jsstring :=
  str "What is the melting point of water".

Definition boilingChunk : Document :=
  {| pageContent := str "water boils at 100 degrees celsius boiling point";
     metadata := Some {[ str "filename" := VString (str "a.pdf");
                         str "page" := VNumber (Number_of_Z 3) ]} |}.

Definition recipeChunk : Document :=
  {| pageContent := str "Whisk two eggs and fold in the flour";
     metadata := Some {[ str "filename" := VString (str "b.txt") ]} |}.

Definition bareChunk : Document :=
  {| pageContent := str "no metadata here"; metadata := None |}.

(** A chunk of 1600 letters [a] followed by [tail]. *)
Definition longChunk (tail : jsstring) : Document :=
  {| pageContent := repeat 97 1600 ++ tail; metadata := None |}.

Definition sampleStore (docs : list Document)
  : jsstring -> number -> completion (list Document) :=
  fun _ _ => Normal docs.

Definition sampleLlm : jsstring -> jsstring -> completion jsstring :=
  fun _ _ => Normal (str " Water boils at 100 degrees celsius. ").

(** ** The search CLI (the second program of [src/cli/ingest.ts]) *)

(** [.replace(/\s+/g, ' ')]: every maximal run of white space becomes one
    space. [inRun] records that the previous code unit was white space. *)
Fixpoint collapseRuns (inRun : bool) (s : jsstring) : jsstring :=
  match s with
  | [] => []
  | c :: s' =>
      if isWhiteSpace c
      then (if inRun then collapseRuns true s' else 32 :: collapseRuns true s')
      else c :: collapseRuns false s'
  end.

(** [r.pageContent.slice(0, 220).replace(/\s+/g, ' ').trim()] *)
Definition snippet (content : jsstring) : jsstring :=
  trim (collapseRuns false (firstn 220 content)).

(** A recogniser used to state what a snippet looks like: every white-space
    code unit is a plain space and follows a code unit that is not white
    space ([prev] tells whether the unit before [s] is white space). *)
Fixpoint singleSpaced (prev : bool) (s : jsstring) : bool :=
  match s with
  | [] => true
  | c :: s' =>
      if isWhiteSpace c
      then (c =? 32) && negb prev && singleSpaced true s'
      else singleSpaced false s'
  end.

(** The operator [>] on numbers and [Math.floor]. *)
Definition Number_gt (x y : number) : bool := SFltb y x.

Definition Math_floor (x : number) : number :=
  match x with
  | S754_finite s m (Zneg d) =>
      let q := Z.shiftr (Zpos m) (Zpos d) in
      let exact := (Z.land (Zpos m) (Z.ones (Zpos d)) =? 0)%Z in
      if s then Number_of_Z (- (if exact then q else q + 1))
      else Number_of_Z q
  | _ => x
  end.

(** The retrieval depth both CLIs derive from the parsed answer to the TopK
    prompt:
    [Number.isFinite(kParsed) && kParsed > 0 ? Math.floor(kParsed) : dflt]. *)
Definition topK (dflt : number) (kParsed : number) : number :=
  if Number_isFinite kParsed && Number_gt kParsed (S754_zero false)
  then Math_floor kParsed
  else dflt.

(** The real number a finite positive binary64 value denotes, rounded down. *)
Definition floorOfFinite (m : positive) (e : Z) : Z :=
  match e with
  | Zneg d => Z.shiftr (Zpos m) (Zpos d)
  | _ => Z.shiftl (Zpos m) e
  end.

#[local] Existing Instance IO_ret.
#[local] Existing Instance IO_bind.

Section SearchCli.
Context `{Host}.
Variable store : jsstring -> number -> completion (list Document).

(** One result line: [`- ${cite} ${snippet}...`]. *)
Definition resultLine (r : Document) : jsstring :=
  str "- " ++ citeOf r ++ str " " ++ snippet (pageContent r) ++ str "...".

(** The body of the loop of the search CLI from the retrieval on. *)
Definition searchQuery (query : jsstring) (k : number) : IO unit :=
  results ← similaritySearch store query k ;
  consoleLog (str "Results: " ++ decimal (N.of_nat (length results))) ;;
  forEach (fun r => consoleLog (resultLine r)) results ;;
  consoleLog [].

End SearchCli.

(** ** More of JavaScript: truthiness, objects, values with a BigInt *)

(** [ToBoolean]. *)
Definition ToBoolean (value : JSValue) : bool :=
  match value with
  | VUndefined | VNull => false
  | VBoolean b => b
  | VNumber x =>
      match x with
      | S754_zero _ | S754_nan => false
      | _ => true
      end
  | VString s => nonEmpty s
  | VBigInt z => negb (z =? 0)%Z
  | VSymbol | VFunction | VError _ _ | VArray _ | VObject _ => true
  end.

(** [typeof value === 'object' && value !== null] *)
Definition isObject (value : JSValue) : bool :=
  match value with
  | VError _ _ | VArray _ | VObject _ => true
  | _ => false
  end.

(** [(value as Record<string, unknown>)[key]] for a key that is neither an
    array index nor a property of [Error] or [Array]: the entry of a plain
    object ([props] holds one entry per key), [undefined] otherwise. *)
Definition objectProp (value : JSValue) (key : jsstring) : JSValue :=
  match value with
  | VObject props =>
      match List.find (fun kv => bool_decide (fst kv = key)) props with
      | Some kv => snd kv
      | None => VUndefined
      end
  | _ => VUndefined
  end.

(** A BigInt, or an array or object that holds one at any depth. *)
Fixpoint containsBigInt (value : JSValue) : bool :=
  match value with
  | VBigInt _ => true
  | VArray items => existsb containsBigInt items
  | VObject props => existsb (fun kv => containsBigInt (snd kv)) props
  | _ => false
  end.

(** An object with a method [toJSON] of its own, at any depth.
    [JSON.stringify] calls such a method and serializes what it returns in
    place of the object; a function here is opaque, so what the call returns
    is not a matter of these values, and [SerializeJSONProperty] above
    writes the object member by member. The statements about the text that
    [JSON.stringify] produces are therefore about the values without such a
    method. A property [toJSON] that is not a function is not called. *)
Definition isToJSONMethod (kv : jsstring * JSValue) : bool :=
  match snd kv with
  | VFunction => bool_decide (fst kv = str "toJSON")
  | _ => false
  end.

Fixpoint hasToJSON (value : JSValue) : bool :=
  match value with
  | VArray items => existsb hasToJSON items
  | VObject props =>
      existsb (fun kv => isToJSONMethod kv || hasToJSON (snd kv)) props
  | _ => false
  end.

(** ** The loader ([loaders.ts], printed after [src/core/metadata.ts]) *)

(** A document as a LangChain loader yields it. *)
Record RawDocument := {
  rawContent : jsstring;
  rawMetadata : Meta;
}.

Definition extractPdfPage (metadata : Meta) : option number :=
  let loc := getProp metadata (str "loc") in
  if isObject loc then
    match objectProp loc (str "pageNumber") with
    | VNumber pageNumber =>
        if Number_isFinite pageNumber then Some pageNumber else None
    | _ => None
    end
  else None.

Section Loader.
Context `{Host}.
(** [path.basename] of Node.js, whose result depends on the platform. *)
Variable basename : jsstring -> jsstring.

Definition sourcePathOf (metadata : Meta) : jsstring :=
  match getProp metadata (str "source") with
  | VString s => s
  | _ => []
  end.

Definition filenameOf (metadata : Meta) : jsstring :=
  let sourcePath := sourcePathOf metadata in
  if nonEmpty sourcePath then basename sourcePath else str "unknown".

(** The record [{ filename, source: sourcePath, page }]. *)
Definition normalized (metadata : Meta) : Meta :=
  {[ str "filename" := VString (filenameOf metadata);
     str "source" := VString (sourcePathOf metadata);
     str "page" := match extractPdfPage metadata with
                   | Some page => VNumber page
                   | None => VNull
                   end ]}.

(** One turn of the loop of [loadDocuments]. *)
Definition normalizeDocument (d : RawDocument) : Document :=
  {| pageContent := rawContent d;
     metadata := Some (sanitizeForChromaMetadata (normalized (rawMetadata d))) |}.

(** [loadDocuments] after [loader.load()] has answered [docs]. *)
Definition normalizeDocuments (docs : list RawDocument) : list Document :=
  List.map normalizeDocument docs.

End Loader.

(** ** The ingest CLI (the first program of [src/cli/ingest.ts]) *)

(** The part of the validated environment the CLI reads. *)
Record Env := {
  CHROMA_COLLECTION : jsstring;
  DATA_DIR : jsstring;
  RESET_COLLECTION : JSValue;
}.

Inductive IngestEvent :=
| DeleteCollection (name : jsstring)
| LoaderLoad (dataDir : jsstring)
| SplitDocuments (docs : list Document)
| AddDocuments (chunks : list Document)
| IngestLog (line : jsstring).

(** Computations over any kind of event. *)
Definition Trace (E A : Type) : Type := list E * completion A.

#[local] Instance Trace_ret E : MRet (Trace E) := fun A a => ([], Normal a).
#[local] Instance Trace_bind E : MBind (Trace E) := fun A B f m =>
  match m with
  | (t, Normal a) => let '(t', r) := f a in (t ++ t', r)
  | (t, Throw e) => (t, Throw e)
  end.

(** [try { body } catch { }]: whatever [body] did before it threw stays done,
    and the exception is dropped. *)
Definition swallow {E} (body : Trace E unit) : Trace E unit :=
  (fst body, Normal tt).

(** [try { body } finally { last }] for a [last] that is one event. *)
Definition finally {E A} (body : Trace E A) (last : E) : Trace E A :=
  (fst body ++ [last], snd body).

(** A failure, if there is one, is the last thing that happened, and it is
    one of the events [critical]. *)
Definition failsAt {E A} (critical : E -> bool) (m : Trace E A) : Prop :=
  forall e, snd m = Throw e ->
    exists t ev, fst m = t ++ [ev] /\ critical ev = true.

Section IngestCli.
Context `{Host}.
Variable basename : jsstring -> jsstring.
Variable env : Env.
(** The collaborators: the Chroma client, the directory loader, the text
    splitter and the vector store. *)
Variable deleteCollection : jsstring -> completion unit.
Variable loaderLoad : jsstring -> completion (list RawDocument).
Variable splitDocuments : list Document -> completion (list Document).
Variable addDocuments : list Document -> completion unit.

Definition ingestLog (line : jsstring) : Trace IngestEvent unit :=
  ([IngestLog line], Normal tt).

Definition resetCollectionIfNeeded : Trace IngestEvent unit :=
  if negb (ToBoolean (RESET_COLLECTION env)) then mret tt
  else
    swallow
      (([DeleteCollection (CHROMA_COLLECTION env)],
        deleteCollection (CHROMA_COLLECTION env)) ;;
       ingestLog (str "Deleted collection: " ++ CHROMA_COLLECTION env)).

Definition loadDocuments (dataDir : jsstring) : Trace IngestEvent (list Document) :=
  docs ← ([LoaderLoad dataDir], loaderLoad dataDir) ;
  mret (normalizeDocuments basename docs).

Definition ingestMain : Trace IngestEvent unit :=
  resetCollectionIfNeeded ;;
  rawDocs ← loadDocuments (DATA_DIR env) ;
  if (length rawDocs =? 0)%nat then
    ingestLog (str "No documents found in: " ++ DATA_DIR env)
  else
    chunks ← ([SplitDocuments rawDocs], splitDocuments rawDocs) ;
    ([AddDocuments chunks], addDocuments chunks) ;;
    ingestLog (str "Ingest complete.") ;;
    ingestLog (str "Documents: " ++ decimal (N.of_nat (length rawDocs))) ;;
    ingestLog (str "Chunks: " ++ decimal (N.of_nat (length chunks))) ;;
    ingestLog (str "Chroma collection: " ++ CHROMA_COLLECTION env).

End IngestCli.

(** The run of [main] of the ingest CLI after the reset, spelled out by
    what each collaborator answers. *)
Section IngestOutcomes.
Context `{Host}.
Variable basename : jsstring -> jsstring.
Variable env : Env.
Variable loaderLoad : jsstring -> completion (list RawDocument).
Variable splitDocuments : list Document -> completion (list Document).
Variable addDocuments : list Document -> completion unit.

Definition summaryLines (docs chunks : list Document) : list IngestEvent :=
  [ IngestLog (str "Ingest complete.");
    IngestLog (str "Documents: " ++ decimal (N.of_nat (length docs)));
    IngestLog (str "Chunks: " ++ decimal (N.of_nat (length chunks)));
    IngestLog (str "Chroma collection: " ++ CHROMA_COLLECTION env) ].

Definition afterReset : Trace IngestEvent unit :=
  match loaderLoad (DATA_DIR env) with
  | Throw e => ([LoaderLoad (DATA_DIR env)], Throw e)
  | Normal raws =>
      let docs := normalizeDocuments basename raws in
      match docs with
      | [] =>
          ([ LoaderLoad (DATA_DIR env);
             IngestLog (str "No documents found in: " ++ DATA_DIR env) ],
           Normal tt)
      | _ :: _ =>
          match splitDocuments docs with
          | Throw e => ([LoaderLoad (DATA_DIR env); SplitDocuments docs], Throw e)
          | Normal chunks =>
              match addDocuments chunks with
              | Throw e =>
                  ([ LoaderLoad (DATA_DIR env); SplitDocuments docs;
                     AddDocuments chunks ], Throw e)
              | Normal _ =>
                  ([ LoaderLoad (DATA_DIR env); SplitDocuments docs;
                     AddDocuments chunks ] ++ summaryLines docs chunks,
                   Normal tt)
              end
          end
      end
  end.

End IngestOutcomes.

Definition ingestLines (t : list IngestEvent) : list jsstring :=
  omap (fun ev => match ev with IngestLog l => Some l | _ => None end) t.

Definition touchesStore (ev : IngestEvent) : bool :=
  match ev with
  | AddDocuments _ => true
  | _ => false
  end.

Definition deletes (ev : IngestEvent) : bool :=
  match ev with
  | DeleteCollection _ => true
  | _ => false
  end.

(** The events of a question that passes the gate, up to and including the
    call of the chat model. *)
Definition groundedPrefix `{Host} (question : jsstring) (k : number)
    (retrieved : list Document) : list Event :=
  [ ConsoleLog (str "Retrieving sources...");
    SimilaritySearch question k;
    ConsoleLog (retrievedLine retrieved);
    ConsoleLog (scoreLine (evidenceScore question retrieved));
    ConsoleLog (str "Generating answer...");
    LlmInvoke systemPrompt (userPrompt question (buildContext retrieved)) ].

(** ** The interactive loop of the query CLI *)

Inductive SessionEvent :=
| Prompt (text : jsstring)
| Step (ev : Event)
| RlClose.

Definition QUESTION_PROMPT : jsstring := str "Question (empty to exit): ".
Definition TOPK_PROMPT : jsstring := str "TopK (default 8): ".

Section QuerySession.
Context `{Host}.
(** [Number(text)], the conversion of a string to a number. *)
Variable StringToNumber : jsstring -> number.
(** The collaborators; the turn number stands for whatever makes them
    answer differently from one call to the next. *)
Variable store : nat -> jsstring -> number -> completion (list Document).
Variable llm : nat -> jsstring -> jsstring -> completion jsstring.

Definition prompt (text : jsstring) : Trace SessionEvent unit :=
  ([Prompt text], Normal tt).

Definition liftStep {A} (m : IO A) : Trace SessionEvent A :=
  (List.map Step (fst m), snd m).

(** From the TopK prompt to the end of the loop body, for a question that is
    not empty. *)
Definition turn (i : nat) (question kInput : jsstring)
  : Trace SessionEvent unit :=
  prompt TOPK_PROMPT ;;
  let k := topK (Number_of_Z 8) (StringToNumber (trim kInput)) in
  liftStep (processQuestion (store i) (llm i) question k).

(** The [while (true)] loop of [main] on the lines the user types; once they
    are used up every further prompt is answered with an empty line. *)
Fixpoint questionLoop (i : nat) (lines : list jsstring)
  : Trace SessionEvent unit :=
  match lines with
  | [] => prompt QUESTION_PROMPT
  | q :: afterQ =>
      prompt QUESTION_PROMPT ;;
      let question := trim q in
      if nonEmpty question then
        match afterQ with
        | [] => turn i question [] ;; prompt QUESTION_PROMPT
        | kInput :: rest => turn i question kInput ;; questionLoop (S i) rest
        end
      else mret tt
  end.

(** [try { while ... } finally { rl.close() }] *)
Definition queryMain (lines : list jsstring) : Trace SessionEvent unit :=
  finally (questionLoop 0 lines) RlClose.

(** The iterations of the loop that run to their end, one for each pair of
    a question and the line typed at the TopK prompt, counted from turn
    [i]. *)
Fixpoint turns (i : nat) (asked : list (jsstring * jsstring))
  : Trace SessionEvent unit :=
  match asked with
  | [] => mret tt
  | (q, kInput) :: more =>
      prompt QUESTION_PROMPT ;; turn i (trim q) kInput ;; turns (S i) more
  end.

End QuerySession.

Definition isExternalCall (ev : SessionEvent) : bool :=
  match ev with
  | Step (SimilaritySearch _ _) | Step (LlmInvoke _ _) => true
  | _ => false
  end.

(** The lines typed in the turns [asked], in the order the prompts read
    them. *)
Definition typedLines (asked : list (jsstring * jsstring)) : list jsstring :=
  flat_map (fun p => [fst p; snd p]) asked.

(** ** More sample data *)

Definition shoutedChunk : Document :=
  {| pageContent := str "WATER Boils At 100 Degrees Celsius BOILING POINT";
     metadata := None |}.

Definition failingStore : jsstring -> number -> completion (list Document) :=
  fun _ _ => Throw (str "ECONNREFUSED").

Definition failingLlm : jsstring -> jsstring -> completion jsstring :=
  fun _ _ => Throw (str "rate limited").

(** The number 3.5. *)
Definition threeAndHalf : number := S754_finite false 7881299347898368 (-51).

(** A stand-in for [path.basename]: what follows the last slash. *)
Fixpoint afterLastSlash (acc s : jsstring) : jsstring :=
  match s with
  | [] => acc
  | c :: s' => if c =? 47 then afterLastSlash [] s' else afterLastSlash (acc ++ [c]) s'
  end.

Definition samplePdfPage : RawDocument :=
  {| rawContent := str "Water boils at 100 degrees celsius.";
     rawMetadata :=
       {[ str "source" := VString (str "/data/a.pdf");
          str "pdf" := VObject [(str "totalPages", VNumber (Number_of_Z 12))];
          str "loc" := VObject [(str "pageNumber", VNumber (Number_of_Z 3))] ]} |}.

Definition sampleEnv (reset : JSValue) : Env :=
  {| CHROMA_COLLECTION := str "docs"; DATA_DIR := str "./data";
     RESET_COLLECTION := reset |}.

Definition missingCollection : jsstring -> completion unit :=
  fun _ => Throw (str "collection not found").

Definition sampleLoader (raws : list RawDocument)
  : jsstring -> completion (list RawDocument) :=
  fun _ => Normal raws.

Definition sampleSplitter : list Document -> completion (list Document) :=
  fun docs => Normal (docs ++ docs).

Definition sampleAdd : list Document -> completion unit :=
  fun _ => Normal tt.

(** * Properties *)

(** ** Sets in insertion order *)

Section JsSetFacts.
Context {A : Type} `{EqDecision A}.
Implicit Types (l acc pre : list A).

Lemma Set_add_fold l : forall acc pre,
  (forall x, x ∈ acc <-> x ∈ pre) ->
  fold_left Set_add l acc
  = acc ++ omap id
      (imap (fun i x => if bool_decide (x ∈ pre ++ take i l) then None else Some x) l).
Proof.
  induction l as [|a l IH]; intros acc pre Hmem; simpl.
  - by rewrite app_nil_r.
  - rewrite app_nil_r.
    assert (Hext : forall acc',
      (forall x, x ∈ acc' <-> x ∈ pre ++ [a]) ->
      fold_left Set_add l acc'
      = acc' ++ omap id
          (imap ((fun i x =>
                    if bool_decide (x ∈ pre ++ take i (a :: l)) then None else Some x) ∘ S) l)).
    { intros acc' Hacc'. rewrite (IH acc' (pre ++ [a]) Hacc').
      do 2 f_equal. apply imap_ext. intros i x _. simpl.
      by rewrite <- app_assoc. }
    unfold Set_add at 2.
    destruct (decide (a ∈ acc)) as [Hin|Hnin].
    + rewrite (bool_decide_eq_true_2 _ Hin).
      rewrite (bool_decide_eq_true_2 (a ∈ pre)) by (by apply Hmem).
      apply Hext. intros x. rewrite elem_of_app, list_elem_of_singleton, <- Hmem.
      split; [tauto | intros [?| ->]; done].
    + rewrite (bool_decide_eq_false_2 _ Hnin).
      rewrite (bool_decide_eq_false_2 (a ∈ pre)) by (by rewrite <- Hmem).
      simpl. rewrite Hext.
      * by rewrite <- app_assoc.
      * intros x. rewrite !elem_of_app, Hmem. tauto.
Qed.

(** The insertion-ordered set of a list is the list of its first
    occurrences. *)
Lemma Set_from_firstOccurrences l : Set_from l = firstOccurrences l.
Proof.
  unfold Set_from, firstOccurrences.
  by rewrite (Set_add_fold l [] []).
Qed.

Lemma Set_add_old acc x : x ∈ acc -> Set_add acc x = acc.
Proof. intros Hin. unfold Set_add. by rewrite bool_decide_eq_true_2. Qed.

Lemma Set_add_new acc x : x ∉ acc -> Set_add acc x = acc ++ [x].
Proof. intros Hin. unfold Set_add. by rewrite bool_decide_eq_false_2. Qed.

Lemma Set_add_NoDup acc x : NoDup acc -> NoDup (Set_add acc x).
Proof.
  intros Hnd. unfold Set_add. case_bool_decide; [done|].
  apply NoDup_app. split_and!; [done| |apply NoDup_singleton].
  intros y Hy ->%list_elem_of_singleton. done.
Qed.

Lemma Set_add_fold_NoDup l : forall acc, NoDup acc -> NoDup (fold_left Set_add l acc).
Proof.
  induction l as [|a l IH]; intros acc Hnd; simpl; [done|].
  apply IH, Set_add_NoDup, Hnd.
Qed.

Lemma Set_from_NoDup l : NoDup (Set_from l).
Proof. apply Set_add_fold_NoDup, NoDup_nil_2. Qed.

Lemma Set_add_fold_elem l : forall acc x,
  x ∈ fold_left Set_add l acc <-> x ∈ acc \/ x ∈ l.
Proof.
  induction l as [|a l IH]; intros acc x; simpl.
  - rewrite elem_of_nil. tauto.
  - rewrite IH, elem_of_cons. unfold Set_add. case_bool_decide.
    + split; [tauto|]. intros [?|[->|?]]; tauto.
    + rewrite elem_of_app, list_elem_of_singleton. tauto.
Qed.

Lemma Set_from_elem l x : x ∈ Set_from l <-> x ∈ l.
Proof.
  unfold Set_from. rewrite Set_add_fold_elem, elem_of_nil. tauto.
Qed.

Lemma Set_from_nil_inv l : Set_from l = [] -> l = [].
Proof.
  intros Hnil. destruct l as [|a l]; [done|].
  assert (Ha : a ∈ Set_from (a :: l)) by (apply Set_from_elem; left).
  rewrite Hnil in Ha. by apply elem_of_nil in Ha.
Qed.

End JsSetFacts.

(** ** Tokenizer *)

(** Dropping the empty pieces of [split(/\s+/)] leaves the maximal runs of
    non-white-space. *)
Lemma splitRuns_words s : forall inRun cur,
  (inRun = true -> cur = []) ->
  List.filter nonEmpty (splitRuns inRun cur s) = wordsFrom cur s.
Proof.
  induction s as [|c s IH]; intros inRun cur Hrun; simpl.
  - by destruct cur.
  - destruct (isWhiteSpace c).
    + destruct inRun.
      * rewrite (Hrun eq_refl). by apply IH.
      * simpl. rewrite (IH true []) by done. by destruct cur.
    + apply IH. done.
Qed.

Lemma filter_map_trim_nonEmpty (l : list jsstring) :
  List.filter (fun t => (3 <=? length t)%nat) (List.map trim (List.filter nonEmpty l))
  = List.filter (fun t => (3 <=? length t)%nat) (List.map trim l).
Proof.
  induction l as [|t l IH]; [done|].
  destruct t as [|c t]; cbn [List.filter List.map nonEmpty].
  - exact IH.
  - by rewrite IH.
Qed.

Section TokenizerFacts.
Context `{Host}.

Lemma tokenize_specTokenize text : tokenize text = specTokenize text.
Proof.
  unfold tokenize, specTokenize, splitWhitespace, replaceNonWord.
  rewrite <- (splitRuns_words _ false []) by done.
  by rewrite filter_map_trim_nonEmpty.
Qed.

(** Every token is at least three code units long. *)
Lemma tokenize_length text t : In t (tokenize text) -> (3 <= length t)%nat.
Proof.
  unfold tokenize. intros [_ Hlen]%filter_In.
  by apply Nat.leb_le in Hlen.
Qed.

Lemma splitRuns_white s : forall inRun,
  forallb isWhiteSpace s = true ->
  Forall (fun piece => piece = []) (splitRuns inRun [] s).
Proof.
  induction s as [|c s IH]; intros inRun Hall; simpl.
  - by repeat constructor.
  - simpl in Hall. apply andb_true_iff in Hall as [-> Hs].
    destruct inRun; [by apply IH|].
    constructor; [done|by apply IH].
Qed.

(** A text without letters and digits, for instance punctuation only, has no
    token. *)
Lemma tokenize_no_alnum text :
  forallb (fun c => negb (isLowerAlnum c)) (toLowerCase text) = true ->
  tokenize text = [].
Proof.
  intros Hall. unfold tokenize, splitWhitespace.
  assert (Hwhite : forallb isWhiteSpace (replaceNonWord (toLowerCase text)) = true).
  { unfold replaceNonWord. rewrite forallb_forall in Hall.
    apply forallb_forall. intros c [c0 [<- Hc0]]%in_map_iff.
    apply Hall, negb_true_iff in Hc0. rewrite Hc0. simpl.
    by destruct (isWhiteSpace c0) eqn:Hw. }
  pose proof (splitRuns_white _ false Hwhite) as Hpieces.
  induction Hpieces as [|piece pieces -> _ IH]; [done|].
  simpl. exact IH.
Qed.

(** A text all of whose words are shorter than three characters has no
    token. *)
Lemma tokenize_short_words text :
  Forall (fun w => (length (trim w) < 3)%nat)
    (wordsFrom [] (replaceNonWord (toLowerCase text))) ->
  tokenize text = [].
Proof.
  intros Hshort. rewrite tokenize_specTokenize. unfold specTokenize.
  fold (replaceNonWord (toLowerCase text)).
  induction Hshort as [|w ws Hw _ IH]; [done|].
  cbn [List.map List.filter].
  apply Nat.ltb_lt in Hw. rewrite Nat.leb_antisym, Hw. exact IH.
Qed.

(** C6. For every string, [tokenize] yields what the specification's
    pipeline yields: lowercase, replace every character outside [a-z0-9] and
    white space by a space, split on whitespace runs, trim each piece, drop
    the tokens shorter than three characters. In particular
    tokenize("Hello, World!") = ["hello", "world"] and
    tokenize("a bb ccc") = ["ccc"]. *)
Theorem tokenize_meets_spec :
  (forall text, tokenize text = specTokenize text)
  /\ tokenize (str "Hello, World!") = [str "hello"; str "world"]
  /\ tokenize (str "a bb ccc") = [str "ccc"].
Proof.
  split; [exact tokenize_specTokenize|].
  split; vm_compute; reflexivity.
Qed.

End TokenizerFacts.

(** ** Numbers: what the gate needs of binary64 arithmetic *)

Lemma shr_1_nonneg mrs : (0 <= shr_m mrs)%Z -> (0 <= shr_m (shr_1 mrs))%Z.
Proof.
  destruct mrs as [m r s]. simpl.
  destruct m as [|[p|p|]|p]; simpl; lia.
Qed.

Lemma iter_shr_1_nonneg p : forall mrs,
  (0 <= shr_m mrs)%Z -> (0 <= shr_m (SpecFloat.iter_pos shr_1 p mrs))%Z.
Proof.
  induction p as [p IH|p IH|]; intros mrs Hm; simpl.
  - apply IH, IH, shr_1_nonneg, Hm.
  - apply IH, IH, Hm.
  - apply shr_1_nonneg, Hm.
Qed.

Lemma shr_fexp_nonneg m e l :
  (0 <= m)%Z -> (0 <= shr_m (fst (shr_fexp prec emax m e l)))%Z.
Proof.
  intros Hm. unfold shr_fexp, shr.
  assert (H0 : (0 <= shr_m (shr_record_of_loc m l))%Z)
    by (destruct l as [|[]]; exact Hm).
  destruct (_ - e)%Z; simpl; [exact H0| |exact H0].
  by apply iter_shr_1_nonneg.
Qed.

Lemma round_nearest_even_nonneg m l :
  (0 <= m)%Z -> (0 <= round_nearest_even m l)%Z.
Proof.
  intros Hm. destruct l as [|[]]; simpl; try lia.
  destruct (Z.even m); lia.
Qed.

(** Rounding a non-negative mantissa never produces NaN. *)
Lemma binary_round_aux_not_nan s m e l :
  (0 <= m)%Z -> isNaN (binary_round_aux prec emax s m e l) = false.
Proof.
  intros Hm. unfold binary_round_aux.
  pose proof (shr_fexp_nonneg m e l Hm) as H1.
  destruct (shr_fexp prec emax m e l) as [mrs' e']. simpl in H1.
  pose proof (shr_fexp_nonneg _ e' loc_Exact
                (round_nearest_even_nonneg _ (loc_of_shr_record mrs') H1)) as H2.
  destruct (shr_fexp prec emax _ e' loc_Exact) as [mrs'' e'']. simpl in H2.
  destruct (shr_m mrs'') as [|q|q]; [done| |lia].
  by destruct (_ <=? _)%Z.
Qed.

Lemma Number_of_Z_not_nan z : isNaN (Number_of_Z z) = false.
Proof.
  unfold Number_of_Z, binary_normalize, binary_round.
  destruct z as [|p|p]; [done| |];
    destruct (shl_align _ _ _) as [mz ez]; by apply binary_round_aux_not_nan.
Qed.

Lemma digits2_pos_lower p : (2 ^ (Zpos (digits2_pos p) - 1) <= Zpos p)%Z.
Proof.
  induction p as [p IH|p IH|]; simpl digits2_pos; [| |done].
  - rewrite Pos2Z.inj_succ.
    replace (Z.succ (Zpos (digits2_pos p)) - 1)%Z
      with (Z.succ (Zpos (digits2_pos p) - 1))%Z by lia.
    rewrite Z.pow_succ_r by lia. lia.
  - rewrite Pos2Z.inj_succ.
    replace (Z.succ (Zpos (digits2_pos p)) - 1)%Z
      with (Z.succ (Zpos (digits2_pos p) - 1))%Z by lia.
    rewrite Z.pow_succ_r by lia. lia.
Qed.

Lemma digits2_pos_bound p : (Zpos p < 2 ^ 53)%Z -> (Zpos (digits2_pos p) <= 53)%Z.
Proof.
  intros Hp. pose proof (digits2_pos_lower p) as Hlow.
  destruct (Z_le_gt_dec (Zpos (digits2_pos p)) 53) as [|Hgt]; [done|].
  assert (2 ^ 53 <= 2 ^ (Zpos (digits2_pos p) - 1))%Z
    by (apply Z.pow_le_mono_r; lia).
  lia.
Qed.

Lemma digits2_pos_iter_xO d : forall p,
  digits2_pos (Pos.iter xO p d) = (digits2_pos p + d)%positive.
Proof.
  induction d as [|d IH] using Pos.peano_ind; intros p.
  - simpl. lia.
  - rewrite Pos.iter_succ. simpl. rewrite IH. lia.
Qed.

(** A positive integer below 2^53 is a finite positive number. *)
Lemma Number_of_Z_pos_finite p :
  (Zpos p < 2 ^ 53)%Z ->
  exists m e, Number_of_Z (Zpos p) = S754_finite false m e.
Proof.
  intros Hp. pose proof (digits2_pos_bound p Hp) as Hd.
  unfold Number_of_Z, binary_normalize, binary_round.
  assert (Hfexp : fexp prec emax (Zpos (digits2_pos p) + 0)
                  = (Zpos (digits2_pos p) - 53)%Z).
  { unfold fexp, emin, prec, emax. lia. }
  rewrite Hfexp. unfold shl_align.
  assert (Haux : forall mz ez,
    Zpos (digits2_pos mz) = 53%Z -> (-52 <= ez <= 0)%Z ->
    binary_round_aux prec emax false (Zpos mz) ez loc_Exact
    = S754_finite false mz ez).
  { intros mz ez Hdig Hez. unfold binary_round_aux, shr_fexp. simpl Zdigits2.
    rewrite Hdig.
    assert (Hsh : (fexp prec emax (53 + ez) - ez = 0)%Z)
      by (unfold fexp, emin, prec, emax; lia).
    rewrite Hsh. simpl. rewrite Hdig, Hsh. simpl.
    assert (Hle : (ez <=? emax - prec)%Z = true)
      by (apply Z.leb_le; unfold emax, prec; lia).
    by rewrite Hle. }
  destruct (Zpos (digits2_pos p) - 53 - 0)%Z as [|d|d] eqn:Hsub.
  - eexists _, _. apply Haux; lia.
  - lia.
  - eexists _, _. apply Haux.
    + rewrite digits2_pos_iter_xO. lia.
    + lia.
Qed.

(** The quotient of a count by a positive count below 2^53 is not NaN. *)
Lemma count_ratio_not_nan (matched total : nat) :
  (0 < total)%nat -> (Z.of_nat total < 2 ^ 53)%Z ->
  isNaN (Number_div (Number_of_nat matched) (Number_of_nat total)) = false.
Proof.
  intros Hpos Hlt. unfold Number_of_nat.
  destruct (Z.of_nat total) as [|p|p] eqn:Htot; [lia| |lia].
  destruct (Number_of_Z_pos_finite p Hlt) as (mt & et & ->).
  pose proof (Number_of_Z_not_nan (Z.of_nat matched)) as Hm.
  destruct (Number_of_Z (Z.of_nat matched)) as [sm|sm| |sm mm em]; try done.
  unfold Number_div, SFdiv, SFdiv_core_binary.
  set (m' := match (em - et - _)%Z with Z0 => Zpos mm | Zpos _ => _ | Zneg _ => _ end).
  assert (Hm' : (0 <= m')%Z).
  { subst m'. destruct (em - et - _)%Z; [lia| |lia].
    apply Z.shiftl_nonneg. lia. }
  pose proof (Z.div_pos m' (Zpos mt) Hm' eq_refl) as Hq.
  unfold Z.div in Hq.
  destruct (Z.div_eucl m' (Zpos mt)) as [q r]. simpl in Hq.
  by apply binary_round_aux_not_nan.
Qed.

(** The literals of the gate and of its boundary examples are the quotients
    that binary64 division gives. *)
Lemma ratio_literals :
  MIN_OVERLAP_RATIO = Number_div (Number_of_Z 45) (Number_of_Z 100)
  /\ ratio_0_6 = Number_div (Number_of_Z 3) (Number_of_Z 5)
  /\ ratio_0_4 = Number_div (Number_of_Z 2) (Number_of_Z 5).
Proof. split_and!; vm_compute; reflexivity. Qed.

(** Against a finite positive bound and on numbers other than NaN, [x < c]
    is the negation of [x >= c]. *)
Lemma lt_finite_positive_ge x mc ec :
  isNaN x = false ->
  Number_lt x (S754_finite false mc ec)
  = negb (Number_ge x (S754_finite false mc ec)).
Proof.
  intros Hx. unfold Number_lt, Number_ge, SFltb, SFleb.
  destruct x as [s|s| |s m e]; try done; try (by destruct s).
  destruct s; [done|]. unfold SFcompare.
  rewrite (Z.compare_antisym e ec).
  assert (Ha : Pos.compare_cont Eq mc m = CompOpp (Pos.compare_cont Eq m mc))
    by (symmetry; apply (Pos.compare_cont_antisym m mc Eq)).
  rewrite Ha.
  destruct (e ?= ec)%Z; simpl; try done.
  by destruct (Pos.compare_cont Eq m mc).
Qed.

Lemma lt_min_ratio_ge x :
  isNaN x = false ->
  Number_lt x MIN_OVERLAP_RATIO = negb (Number_ge x MIN_OVERLAP_RATIO).
Proof. apply lt_finite_positive_ge. Qed.

(** ** Evidence score and evidence gate *)

Section EvidenceFacts.
Context `{Host}.

Lemma evidenceScore_no_tokens question docs :
  tokenize question = [] -> evidenceScore question docs = zeroScore.
Proof. unfold evidenceScore. by intros ->. Qed.

Lemma evidenceScore_total question docs :
  totalTokens (evidenceScore question docs)
  = length (Set_from (tokenize question)).
Proof.
  unfold evidenceScore.
  by destruct (length (Set_from (tokenize question))).
Qed.

(** The ratio is the quotient of the two counts, and [+0] when there is no
    token. *)
Lemma evidenceScore_ratio question docs :
  overlapRatio (evidenceScore question docs)
  = if (totalTokens (evidenceScore question docs) =? 0)%nat
    then S754_zero false
    else Number_div (Number_of_nat (matchedTokens (evidenceScore question docs)))
           (Number_of_nat (totalTokens (evidenceScore question docs))).
Proof.
  unfold evidenceScore.
  by destruct (length (Set_from (tokenize question))).
Qed.

Lemma evidenceScore_not_nan question docs :
  (Z.of_nat (totalTokens (evidenceScore question docs)) < 2 ^ 53)%Z ->
  isNaN (overlapRatio (evidenceScore question docs)) = false.
Proof.
  intros Hlt. rewrite evidenceScore_ratio.
  destruct (totalTokens (evidenceScore question docs)) as [|n] eqn:Htot; [done|].
  cbn [Nat.eqb]. apply count_ratio_not_nan; [lia|done].
Qed.

(** The score reads the retrieved chunks through the haystack only. *)
Lemma evidenceScore_haystack question docs docs' :
  haystack docs = haystack docs' ->
  evidenceScore question docs = evidenceScore question docs'.
Proof. unfold evidenceScore. by intros ->. Qed.

Lemma haystack_firstn docs : haystack (firstn 3 docs) = haystack docs.
Proof.
  unfold haystack, TOP_SOURCES_FOR_SCORING.
  by rewrite firstn_firstn.
Qed.

Lemma haystack_prefixes docs docs' :
  Forall2 (fun d d' => firstn 1600 (pageContent d) = firstn 1600 (pageContent d'))
    docs docs' ->
  haystack docs = haystack docs'.
Proof.
  intros Hall. unfold haystack. do 2 f_equal.
  generalize TOP_SOURCES_FOR_SCORING as n.
  induction Hall as [|d d' l l' Hd Hl IH]; intros [|n]; simpl; try done.
  by rewrite Hd, IH.
Qed.

(** C1. [hasEnoughEvidence] returns true exactly when there are at least 2
    chunks, at least 1 matched token and an overlap ratio [>= 0.45]; the
    equivalence is stated for fewer than 2^53 distinct question tokens, which
    holds of every array of JavaScript (fewer than 2^32 elements) and keeps
    the quotient of the two counts away from NaN. In particular the gate
    returns false with fewer than 2 chunks whatever the score is; and with 5
    tokens and at least 2 chunks it returns true at 3 matched tokens
    (ratio 0.6) and false at 2 matched tokens (ratio 0.4). *)
Theorem hasEnoughEvidence_iff question docs :
  ((Z.of_nat (totalTokens (evidenceScore question docs)) < 2 ^ 53)%Z ->
   (hasEnoughEvidence question docs = true <->
      (2 <= length docs)%nat
      /\ (1 <= matchedTokens (evidenceScore question docs))%nat
      /\ Number_ge (overlapRatio (evidenceScore question docs)) MIN_OVERLAP_RATIO
         = true))
  /\ ((length docs < 2)%nat -> hasEnoughEvidence question docs = false)
  /\ ((2 <= length docs)%nat ->
      totalTokens (evidenceScore question docs) = 5%nat ->
      (matchedTokens (evidenceScore question docs) = 3%nat ->
         overlapRatio (evidenceScore question docs) = ratio_0_6
         /\ Number_ge ratio_0_6 MIN_OVERLAP_RATIO = true
         /\ hasEnoughEvidence question docs = true)
      /\ (matchedTokens (evidenceScore question docs) = 2%nat ->
         overlapRatio (evidenceScore question docs) = ratio_0_4
         /\ Number_ge ratio_0_4 MIN_OVERLAP_RATIO = false
         /\ hasEnoughEvidence question docs = false)).
Proof.
  pose proof (evidenceScore_ratio question docs) as Hratio.
  unfold hasEnoughEvidence, MIN_MATCHED_TOKENS.
  set (s := evidenceScore question docs) in *.
  split; [|split].
  - intros Hbound.
    pose proof (evidenceScore_not_nan question docs Hbound) as Hnan.
    fold s in Hnan. rewrite (lt_min_ratio_ge _ Hnan).
    destruct (Nat.ltb_spec (length docs) 2) as [Hlen|Hlen].
    { split; [done|]. intros (? & _); lia. }
    destruct (Nat.ltb_spec (matchedTokens s) 1) as [Hm|Hm].
    { split; [done|]. intros (_ & ? & _); lia. }
    destruct (Number_ge (overlapRatio s) MIN_OVERLAP_RATIO); simpl.
    + split; [by intros _|done].
    + split; [done|]. by intros (_ & _ & ?).
  - intros Hlen. by apply Nat.ltb_lt in Hlen as ->.
  - intros Hlen Htot.
    assert (Hlen' : (length docs <? 2)%nat = false) by (by apply Nat.ltb_ge).
    rewrite Hlen'. rewrite Htot in Hratio. cbn [Nat.eqb] in Hratio.
    split; intros Hm; rewrite Hm in Hratio; rewrite Hm, Hratio;
      split_and!; vm_compute; reflexivity.
Qed.

(** C5. A question whose tokenization yields no token (such as the empty
    question, a question of punctuation only, or one whose words all have
    fewer than 3 characters) scores exactly
    {matchedTokens: 0, totalTokens: 0, overlapRatio: 0} against every chunk
    sequence, and the gate refuses it. *)
Theorem no_tokens_refused question docs :
  tokenize question = [] ->
  evidenceScore question docs = zeroScore
  /\ hasEnoughEvidence question docs = false.
Proof.
  intros Hnil. pose proof (evidenceScore_no_tokens question docs Hnil) as Hs.
  split; [exact Hs|].
  unfold hasEnoughEvidence. rewrite Hs. simpl.
  by destruct (length docs <? 2)%nat.
Qed.

(** The three kinds of questions the specification names have no token. *)
Lemma degenerate_questions :
  tokenize [] = []
  /\ tokenize (str "?!... -- (;)") = []
  /\ tokenize (str "a bb, cc d") = [].
Proof. repeat split; vm_compute; reflexivity. Qed.

(** C7. The score depends on the first 3 chunks only and, in each chunk, on
    the first 1600 characters of its content only: it is unchanged when
    docs is cut to its first 3 chunks, and when the content of any chunk is
    replaced beyond its first 1600 characters. *)
Theorem evidenceScore_locality question docs :
  evidenceScore question docs = evidenceScore question (firstn 3 docs)
  /\ (forall docs',
        Forall2 (fun d d' =>
                   firstn 1600 (pageContent d) = firstn 1600 (pageContent d'))
          docs docs' ->
        evidenceScore question docs = evidenceScore question docs').
Proof.
  split.
  - apply evidenceScore_haystack. by rewrite haystack_firstn.
  - intros docs' Hall. by apply evidenceScore_haystack, haystack_prefixes.
Qed.

End EvidenceFacts.

(** ** Citations *)

Section CitationFacts.
Context `{Host}.

Lemma getString_filename meta f :
  meta !! str "filename" = Some (VString f) ->
  getString meta (str "filename") = Some f.
Proof. intros Hf. unfold getString, getProp. by rewrite Hf. Qed.

Lemma getNumber_finite meta x :
  meta !! str "page" = Some (VNumber x) -> Number_isFinite x = true ->
  getNumber meta (str "page") = Some x.
Proof.
  intros Hp Hx. unfold getNumber, getProp. rewrite Hp. simpl.
  by rewrite Hx.
Qed.

(** [getNumber] yields null on a missing page and on every page that is not
    a finite number. *)
Lemma getNumber_none meta :
  (forall x, meta !! str "page" = Some (VNumber x) -> Number_isFinite x = false) ->
  getNumber meta (str "page") = None.
Proof.
  intros Hx. unfold getNumber, getProp.
  destruct (meta !! str "page") as [[]|]; try done.
  simpl. by rewrite Hx.
Qed.

Lemma key_page_filename : str "page" <> str "filename".
Proof. intros Heq. vm_compute in Heq. discriminate Heq. Qed.

(** C8. The label is "[<filename> p.<page>]" when the metadata holds a
    string filename and a (finite) page number, "[<filename>]" when the page
    is absent or null, and the literal "unknown" stands for the filename
    when there is no string filename. For instance
    {filename: "a.pdf", page: 3} gives "[a.pdf p.3]", {filename: "b.txt"}
    gives "[b.txt]" and empty metadata gives "[unknown]". *)
Theorem formatCite_label :
  (forall meta f x,
     meta !! str "filename" = Some (VString f) ->
     meta !! str "page" = Some (VNumber x) ->
     Number_isFinite x = true ->
     formatCite meta = str "[" ++ f ++ str " p." ++ Number_toString x ++ str "]")
  /\ (forall meta f,
        meta !! str "filename" = Some (VString f) ->
        meta !! str "page" = None \/ meta !! str "page" = Some VNull ->
        formatCite meta = str "[" ++ f ++ str "]")
  /\ (forall meta,
        (forall f, meta !! str "filename" <> Some (VString f)) ->
        formatCite meta
        = formatCite (<[str "filename" := VString (str "unknown")]> meta))
  /\ formatCite {[ str "filename" := VString (str "a.pdf");
                   str "page" := VNumber (Number_of_Z 3) ]}
     = str "[a.pdf p.3]"
  /\ formatCite {[ str "filename" := VString (str "b.txt") ]} = str "[b.txt]"
  /\ formatCite ∅ = str "[unknown]"
  /\ formatCite {[ str "page" := VNumber (Number_of_Z 7) ]}
     = str "[unknown p.7]".
Proof.
  split_and!.
  - intros meta f x Hf Hp Hx. unfold formatCite.
    by rewrite (getString_filename _ _ Hf), (getNumber_finite _ _ Hp Hx).
  - intros meta f Hf Hp. unfold formatCite.
    rewrite (getString_filename _ _ Hf), getNumber_none; [done|].
    intros x Hx. destruct Hp as [Hp|Hp]; rewrite Hp in Hx; discriminate Hx.
  - intros meta Hf. unfold formatCite.
    assert (Hs : getString meta (str "filename") = None).
    { unfold getString, getProp.
      destruct (meta !! str "filename") as [[]|] eqn:Hlook; try done.
      by destruct (Hf s). }
    assert (Hs' : getString (<[str "filename" := VString (str "unknown")]> meta)
                    (str "filename") = Some (str "unknown")).
    { apply getString_filename, lookup_insert_eq. }
    assert (Hn : getNumber (<[str "filename" := VString (str "unknown")]> meta)
                   (str "page") = getNumber meta (str "page")).
    { unfold getNumber, getProp.
      rewrite lookup_insert_ne; [done|]. intros Heq. by apply key_page_filename. }
    by rewrite Hs, Hs', Hn.
  - vm_compute. reflexivity.
  - vm_compute. reflexivity.
  - vm_compute. reflexivity.
  - vm_compute. reflexivity.
Qed.

(** C10. A page bound to a number that is not finite (NaN, +Infinity,
    -Infinity) or to a value that is not a number is rendered as if the page
    were absent: "[<filename>]" with no page segment. *)
Theorem formatCite_unusable_page meta v :
  meta !! str "page" = Some v ->
  (forall x, v = VNumber x -> Number_isFinite x = false) ->
  formatCite meta = formatCite (delete (str "page") meta)
  /\ formatCite meta
     = str "[" ++ default (str "unknown") (getString meta (str "filename"))
       ++ str "]".
Proof.
  intros Hv Hbad.
  assert (Hn : getNumber meta (str "page") = None).
  { apply getNumber_none. intros x Hx. apply Hbad. congruence. }
  assert (Hn' : getNumber (delete (str "page") meta) (str "page") = None).
  { apply getNumber_none. intros x Hx. by rewrite lookup_delete_eq in Hx. }
  assert (Hs : getString (delete (str "page") meta) (str "filename")
               = getString meta (str "filename")).
  { unfold getString, getProp. rewrite lookup_delete_ne; [done|].
    apply key_page_filename. }
  unfold formatCite. by rewrite Hn, Hn', Hs.
Qed.

(** C9. The citation list is the list of the per-chunk labels, deduplicated
    with the order of first occurrence preserved, cut to at most 5 entries.
    For instance the labels [c1, c2, c1, c3] give [c1, c2, c3]. *)
Theorem citations_first_occurrences docs :
  citations docs = firstn 5 (firstOccurrences (List.map citeOf docs))
  /\ (length (citations docs) <= 5)%nat
  /\ NoDup (citations docs)
  /\ (forall d1 d2 d3,
        docs = [d1; d2; d1; d3] ->
        citeOf d1 <> citeOf d2 -> citeOf d1 <> citeOf d3 ->
        citeOf d2 <> citeOf d3 ->
        citations docs = [citeOf d1; citeOf d2; citeOf d3]).
Proof.
  unfold citations, extractCitations. split_and!.
  - by rewrite Set_from_firstOccurrences.
  - rewrite length_take. lia.
  - eapply sublist_NoDup; [apply Set_from_NoDup|apply sublist_take].
  - intros d1 d2 d3 -> H12 H13 H23.
    unfold Set_from. cbn [List.map fold_left].
    rewrite (Set_add_new [] (citeOf d1)) by apply not_elem_of_nil.
    cbn [app].
    rewrite (Set_add_new [citeOf d1] (citeOf d2))
      by (intros Hin%list_elem_of_singleton; congruence).
    cbn [app].
    rewrite (Set_add_old [citeOf d1; citeOf d2] (citeOf d1))
      by (apply elem_of_cons; by left).
    rewrite (Set_add_new [citeOf d1; citeOf d2] (citeOf d3)).
    + reflexivity.
    + intros Hin. rewrite !elem_of_cons, elem_of_nil in Hin.
      intuition congruence.
Qed.

End CitationFacts.

(** ** One question of the CLI *)

Section StepFacts.
Context `{Host}.
Variable store : jsstring -> number -> completion (list Document).
Variable llm : jsstring -> jsstring -> completion jsstring.

(** The run of a refused question, event by event. *)
Lemma processQuestion_refused question k retrieved :
  store question k = Normal retrieved ->
  hasEnoughEvidence question retrieved = false ->
  processQuestion store llm question k
  = ([ ConsoleLog (str "Retrieving sources...");
       SimilaritySearch question k;
       ConsoleLog (retrievedLine retrieved);
       ConsoleLog (scoreLine (evidenceScore question retrieved));
       ConsoleLog NO_EVIDENCE_MESSAGE;
       ConsoleLog [] ],
     Normal tt).
Proof.
  intros Hstore Hgate.
  unfold processQuestion, similaritySearch, consoleLog, mbind, IO_bind.
  rewrite Hstore, Hgate. reflexivity.
Qed.

(** When the retrieval fails the step stops there. *)
Lemma processQuestion_store_fails question k e :
  store question k = Throw e ->
  processQuestion store llm question k
  = ([ ConsoleLog (str "Retrieving sources..."); SimilaritySearch question k ],
     Throw e).
Proof.
  intros Hstore.
  unfold processQuestion, similaritySearch, consoleLog, mbind, IO_bind.
  rewrite Hstore. reflexivity.
Qed.

(** The chat model is reached only behind the gate: a run with a call of
    the chat model is a run whose retrieval succeeded with chunks the gate
    accepts. *)
Lemma llm_only_when_grounded question k :
  (0 < llmCalls (fst (processQuestion store llm question k)))%nat ->
  exists retrieved,
    store question k = Normal retrieved
    /\ hasEnoughEvidence question retrieved = true.
Proof.
  intros Hcalls. destruct (store question k) as [retrieved|e] eqn:Hstore.
  - exists retrieved. split; [done|].
    destruct (hasEnoughEvidence question retrieved) eqn:Hgate; [done|].
    rewrite (processQuestion_refused _ _ _ Hstore Hgate) in Hcalls.
    unfold llmCalls in Hcalls. cbn [fst List.filter length] in Hcalls. lia.
  - rewrite (processQuestion_store_fails _ _ _ Hstore) in Hcalls.
    unfold llmCalls in Hcalls. cbn [fst List.filter length] in Hcalls. lia.
Qed.


End StepFacts.

(** ** The metadata sanitizer *)

Section SanitizerFacts.
Context `{Host}.

Lemma setProp_lookup out key value k :
  setProp out key value !! k
  = if bool_decide (key = str "__proto__") then out !! k
    else if bool_decide (key = k) then Some value else out !! k.
Proof.
  unfold setProp. case_bool_decide; [done|].
  case_bool_decide as Hk.
  - subst. apply lookup_insert_eq.
  - by apply lookup_insert_ne.
Qed.

Lemma sanitizeEntry_lookup key value out k :
  sanitizeEntry key value out !! k
  = if bool_decide (key = k) && negb (bool_decide (key = str "__proto__"))
    then match sanitizeValue value with
         | Some v => Some v
         | None => out !! k
         end
    else out !! k.
Proof.
  unfold sanitizeEntry, sanitizeValue.
  destruct value; cbn [isPrimitive]; rewrite ?setProp_lookup;
    repeat case_bool_decide; simpl; congruence.
Qed.

(** The loop as a whole: every key but [__proto__] is bound to the
    sanitized value of its source when there is one. *)
Lemma sanitize_lookup (input : Meta) k :
  sanitizeForChromaMetadata input !! k
  = if bool_decide (k = str "__proto__") then None
    else input !! k ≫= sanitizeValue.
Proof.
  unfold sanitizeForChromaMetadata. revert k.
  apply (map_fold_weak_ind
           (fun (out input : Meta) =>
              forall k, out !! k
                        = if bool_decide (k = str "__proto__") then None
                          else input !! k ≫= sanitizeValue)).
  - intros k. rewrite !lookup_empty. by case_bool_decide.
  - intros key value m out Hfresh IH k.
    rewrite sanitizeEntry_lookup, IH.
    destruct (decide (key = k)) as [->|Hne].
    + rewrite (bool_decide_eq_true_2 (k = k)) by done.
      rewrite lookup_insert_eq, Hfresh. simpl.
      case_bool_decide; simpl; [done|].
      by destruct (sanitizeValue value).
    + rewrite (bool_decide_eq_false_2 (key = k)) by done.
      by rewrite lookup_insert_ne.
Qed.





(** C3, at an input the code does not handle. A function-valued entry is
    not a primitive, [safeToString] hands back the [undefined] that
    [JSON.stringify] answers for a function, and the sanitizer binds the key
    to it: the output holds a value that is no ChromaMetadataValue. *)
Theorem sanitize_function_entry :
  safeToString VFunction = VUndefined
  /\ sanitizeForChromaMetadata {[ str "f" := VFunction ]}
     = {[ str "f" := VUndefined ]}
  /\ isChromaMetadataValue VUndefined = false.
Proof.
  split_and!; [reflexivity| |reflexivity].
  unfold sanitizeForChromaMetadata.
  by rewrite map_fold_singleton.
Qed.

(** C4, at the same input. Sanitizing the output once more drops the key
    bound to [undefined], so the second pass is not a no-op. *)
Theorem sanitize_twice_differs :
  sanitizeForChromaMetadata (sanitizeForChromaMetadata {[ str "f" := VFunction ]})
  = ∅
  /\ sanitizeForChromaMetadata (sanitizeForChromaMetadata {[ str "f" := VFunction ]})
     <> sanitizeForChromaMetadata {[ str "f" := VFunction ]}.
Proof.
  assert (H1 : sanitizeForChromaMetadata {[ str "f" := VFunction ]}
               = {[ str "f" := VUndefined ]}).
  { unfold sanitizeForChromaMetadata. by rewrite map_fold_singleton. }
  assert (H2 : sanitizeForChromaMetadata {[ str "f" := VUndefined ]} = ∅).
  { unfold sanitizeForChromaMetadata. by rewrite map_fold_singleton. }
  rewrite H1, H2. split; [done|].
  intros Heq. apply (f_equal (fun m : Meta => m !! str "f")) in Heq.
  rewrite lookup_empty, lookup_singleton_eq in Heq. discriminate Heq.
Qed.

End SanitizerFacts.

(** ** The theorems at concrete inputs *)

(** The gate at work: five distinct tokens of which three are found in two
    chunks pass; one chunk that contains every token (ratio 1.0) does not;
    two matched tokens of five (ratio 0.4) do not. *)
Lemma hasEnoughEvidence_iff_witness :
  hasEnoughEvidence (H:=asciiHost) boilingQuestion [boilingChunk; bareChunk]
  = true
  /\ overlapRatio
       (evidenceScore (H:=asciiHost) (str "boiling point water") [boilingChunk])
     = Number_of_Z 1
  /\ hasEnoughEvidence (H:=asciiHost) (str "boiling point water") [boilingChunk]
     = false
  /\ hasEnoughEvidence (H:=asciiHost) meltingQuestion [boilingChunk; bareChunk]
     = false.
Proof.
  split_and!.
  - destruct (hasEnoughEvidence_iff (H:=asciiHost) boilingQuestion
                [boilingChunk; bareChunk]) as (Hiff & _ & _).
    apply Hiff; [vm_compute; reflexivity|].
    split_and!; [simpl; lia|vm_compute; lia|vm_compute; reflexivity].
  - vm_compute. reflexivity.
  - destruct (hasEnoughEvidence_iff (H:=asciiHost) (str "boiling point water")
                [boilingChunk]) as (_ & Hfloor & _).
    apply Hfloor. simpl. lia.
  - destruct (hasEnoughEvidence_iff (H:=asciiHost) meltingQuestion
                [boilingChunk; bareChunk]) as (_ & _ & Hfive).
    destruct Hfive as [_ Htwo]; [simpl; lia|vm_compute; reflexivity|].
    apply Htwo. vm_compute. reflexivity.
Defined.

Lemma no_tokens_refused_witness :
  tokenize (H:=asciiHost) (str "?! a bb") = []
  /\ evidenceScore (H:=asciiHost) (str "?! a bb") [boilingChunk; recipeChunk]
     = zeroScore
  /\ hasEnoughEvidence (H:=asciiHost) (str "?! a bb") [boilingChunk; recipeChunk]
     = false.
Proof.
  split.
  - vm_compute. reflexivity.
  - apply (no_tokens_refused (H:=asciiHost) (str "?! a bb")
             [boilingChunk; recipeChunk]).
    vm_compute. reflexivity.
Defined.

Lemma evidenceScore_locality_witness :
  evidenceScore (H:=asciiHost) boilingQuestion
    [longChunk (str " boiling point"); recipeChunk]
  = evidenceScore (H:=asciiHost) boilingQuestion
      [longChunk (str " frozen lake"); recipeChunk].
Proof.
  refine (proj2 (evidenceScore_locality (H:=asciiHost) boilingQuestion
                   [longChunk (str " boiling point"); recipeChunk]) _ _).
  constructor; [vm_compute; reflexivity|].
  constructor; [reflexivity|constructor].
Defined.

Lemma formatCite_label_witness :
  formatCite (H:=asciiHost) (default ∅ (metadata boilingChunk))
  = str "[" ++ str "a.pdf" ++ str " p."
    ++ Number_toString (H:=asciiHost) (Number_of_Z 3) ++ str "]"
  /\ formatCite (H:=asciiHost) (default ∅ (metadata recipeChunk))
     = str "[" ++ str "b.txt" ++ str "]"
  /\ formatCite (H:=asciiHost) {[ str "page" := VNull ]}
     = formatCite (H:=asciiHost)
         (<[str "filename" := VString (str "unknown")]> {[ str "page" := VNull ]}).
Proof.
  destruct (formatCite_label (H:=asciiHost)) as (Hpage & Hbare & Hunknown & _).
  split_and!.
  - apply Hpage; vm_compute; reflexivity.
  - apply Hbare; [vm_compute; reflexivity|left; vm_compute; reflexivity].
  - apply Hunknown. intros f Hf. vm_compute in Hf. discriminate Hf.
Defined.

Lemma formatCite_unusable_page_witness :
  formatCite (H:=asciiHost)
    {[ str "filename" := VString (str "a.pdf"); str "page" := VNumber S754_nan ]}
  = str "[a.pdf]"
  /\ formatCite (H:=asciiHost)
       {[ str "filename" := VString (str "a.pdf");
          str "page" := VString (str "3") ]}
     = str "[a.pdf]".
Proof.
  split.
  - refine (proj2 (formatCite_unusable_page (H:=asciiHost) _ (VNumber S754_nan) _ _)).
    + vm_compute. reflexivity.
    + intros x Hx. inversion Hx. reflexivity.
  - refine (proj2 (formatCite_unusable_page (H:=asciiHost) _ (VString (str "3")) _ _)).
    + vm_compute. reflexivity.
    + intros x Hx. discriminate Hx.
Defined.

Lemma citations_first_occurrences_witness :
  citations (H:=asciiHost) [boilingChunk; recipeChunk; boilingChunk; bareChunk]
  = [str "[a.pdf p.3]"; str "[b.txt]"; str "[unknown]"].
Proof.
  destruct (citations_first_occurrences (H:=asciiHost)
              [boilingChunk; recipeChunk; boilingChunk; bareChunk])
    as (_ & _ & _ & Hex).
  rewrite (Hex boilingChunk recipeChunk bareChunk).
  - vm_compute. reflexivity.
  - reflexivity.
  - intros Heq. vm_compute in Heq. discriminate Heq.
  - intros Heq. vm_compute in Heq. discriminate Heq.
  - intros Heq. vm_compute in Heq. discriminate Heq.
Defined.


(** The other way out of the step, for comparison: on the passing question
    the chat model is invoked once and the citation section is written. *)
Lemma grounded_step_example :
  consoleLines
    (fst (processQuestion (H:=asciiHost) (sampleStore [boilingChunk; bareChunk])
            sampleLlm boilingQuestion (Number_of_Z 8)))
  = [ str "Retrieving sources...";
      str "Retrieved chunks: 2";
      str "Evidence score: matchedTokens=3, totalTokens=5, overlapRatio=0.600";
      str "Generating answer...";
      str "Water boils at 100 degrees celsius.";
      [];
      str "[Citations]";
      str "- [a.pdf p.3]";
      str "- [unknown]";
      [] ]
  /\ llmCalls
       (fst (processQuestion (H:=asciiHost) (sampleStore [boilingChunk; bareChunk])
               sampleLlm boilingQuestion (Number_of_Z 8)))
     = 1%nat.
Proof. split; vm_compute; reflexivity. Qed.

(** * Further properties of the code *)

(** ** Character classes, trimming, substring search *)

Lemma alnum_not_white c : isLowerAlnum c = true -> isWhiteSpace c = false.
Proof.
  unfold isLowerAlnum, isWhiteSpace. intros Hc.
  rewrite !orb_true_iff, !andb_true_iff, !N.leb_le in Hc.
  rewrite !orb_false_iff, !andb_false_iff, !N.leb_gt, !N.eqb_neq.
  lia.
Qed.

Lemma dropWhile_suffix {A} (p : A -> bool) (l : list A) :
  exists pre, l = pre ++ dropWhile p l /\ forallb p pre = true.
Proof.
  induction l as [|x l (pre & Hl & Hpre)]; simpl.
  - by exists [].
  - destruct (p x) eqn:Hx.
    + exists (x :: pre). simpl. rewrite Hx, Hpre. split; [|done]. by f_equal.
    + by exists [].
Qed.

Lemma dropWhile_head {A} (p : A -> bool) (l : list A) x rest :
  dropWhile p l = x :: rest -> p x = false.
Proof.
  induction l as [|y l IH]; simpl; [done|].
  destruct (p y) eqn:Hy; [exact IH|]. by intros [= <- _].
Qed.

Lemma dropWhile_id {A} (p : A -> bool) (l : list A) :
  match l with [] => True | x :: _ => p x = false end -> dropWhile p l = l.
Proof. destruct l as [|x l]; simpl; [done|]. by intros ->. Qed.

(** [trim] cuts white space off both ends and nothing else. *)
Lemma trim_infix s :
  exists pre post,
    s = pre ++ trim s ++ post
    /\ forallb isWhiteSpace pre = true /\ forallb isWhiteSpace post = true.
Proof.
  unfold trim.
  destruct (dropWhile_suffix isWhiteSpace s) as (pre & Hs & Hpre).
  destruct (dropWhile_suffix isWhiteSpace (rev (dropWhile isWhiteSpace s)))
    as (post & Hr & Hpost).
  exists pre, (rev post). split_and!; [|done|].
  - rewrite <- rev_app_distr, <- Hr, rev_involutive. exact Hs.
  - rewrite forallb_forall in *. intros c Hc. apply Hpost. by apply in_rev.
Qed.

Lemma trim_length s : (length (trim s) <= length s)%nat.
Proof.
  destruct (trim_infix s) as (pre & post & Hs & _).
  rewrite Hs at 2. rewrite !length_app. lia.
Qed.

Lemma trim_Forall (P : N -> Prop) s : Forall P s -> Forall P (trim s).
Proof.
  destruct (trim_infix s) as (pre & post & Hs & _). rewrite Hs at 1.
  rewrite !Forall_app. tauto.
Qed.

Lemma startsWith_app s t : startsWith (t ++ s) t = true.
Proof.
  induction t as [|a t IH]; simpl; [by destruct s|].
  by rewrite N.eqb_refl, IH.
Qed.

Lemma includes_startsWith hay t :
  startsWith hay t = true -> includes hay t = true.
Proof. intros Hs. destruct hay; cbn [includes]; by rewrite Hs. Qed.

(** A string includes each of its infixes. *)
Lemma includes_infix pre t post : includes (pre ++ t ++ post) t = true.
Proof.
  induction pre as [|a pre IH].
  - apply includes_startsWith. exact (startsWith_app post t).
  - cbn [app includes]. rewrite IH. apply orb_true_r.
Qed.

Lemma startsWith_nil t : startsWith [] t = true -> t = [].
Proof. by destruct t. Qed.

Lemma includes_nil t : includes [] t = true -> t = [].
Proof. simpl. rewrite orb_false_r. apply startsWith_nil. Qed.

(** ** More on the tokenizer *)

Lemma replaceNonWord_classes s :
  Forall (fun c => isLowerAlnum c = true \/ isWhiteSpace c = true)
    (replaceNonWord s).
Proof.
  unfold replaceNonWord. apply Forall_forall. intros c Hc.
  apply list_elem_of_In, in_map_iff in Hc as (c0 & <- & _).
  destruct (isLowerAlnum c0) eqn:Ha; simpl; [by left|].
  destruct (isWhiteSpace c0) eqn:Hw; by right.
Qed.

Lemma splitRuns_alnum s : forall inRun cur,
  Forall (fun c => isLowerAlnum c = true \/ isWhiteSpace c = true) s ->
  Forall (fun c => isLowerAlnum c = true) cur ->
  Forall (Forall (fun c => isLowerAlnum c = true)) (splitRuns inRun cur s).
Proof.
  induction s as [|c s IH]; intros inRun cur Hs Hcur; simpl.
  - by constructor.
  - inversion Hs as [|? ? Hc Hs']; subst.
    destruct (isWhiteSpace c) eqn:Hw.
    + destruct inRun; [by apply IH|].
      constructor; [done|]. by apply IH.
    + apply IH; [done|]. apply Forall_app. split; [done|].
      constructor; [|done]. destruct Hc as [Hc|Hc]; [done|congruence].
Qed.

Section TokenizerMore.
Context `{Host}.

(** X1. Every token is at least three code units long and consists of
    lower-case letters and digits only (so it holds no white space and no
    punctuation), whatever the text is. *)
Theorem tokenize_tokens_alnum text :
  Forall (fun t => (3 <= length t)%nat /\ forallb isLowerAlnum t = true)
    (tokenize text).
Proof.
  unfold tokenize, splitWhitespace.
  pose proof (splitRuns_alnum _ false [] (replaceNonWord_classes (toLowerCase text))
                (Forall_nil_2 _)) as Hpieces.
  induction Hpieces as [|piece pieces Hpiece _ IH]; [constructor|].
  cbn [List.map List.filter].
  destruct (3 <=? length (trim piece))%nat eqn:Hlen; [|exact IH].
  constructor; [|exact IH]. split; [by apply Nat.leb_le|].
  apply forallb_forall. intros c Hc.
  pose proof (trim_Forall _ _ Hpiece) as Htrim.
  rewrite Forall_forall in Htrim. by apply Htrim, list_elem_of_In.
Qed.

Lemma toLowerCase_ascii s :
  forallb isAscii s = true -> toLowerCase s = List.map asciiLower s.
Proof. unfold toLowerCase. by intros ->. Qed.

Lemma asciiLower_ascii c : isAscii c = true -> isAscii (asciiLower c) = true.
Proof.
  unfold isAscii, asciiLower. intros Hc%N.ltb_lt.
  destruct ((65 <=? c) && (c <=? 90)) eqn:Hup; apply N.ltb_lt; [|done].
  apply andb_true_iff in Hup as [_ Hle%N.leb_le]. lia.
Qed.

End TokenizerMore.

(** ** More on the evidence score and the gate *)

Lemma countMatches_fold hay toks : forall n,
  (fold_left (fun matched t => if includes hay t then (matched + 1)%nat else matched)
     toks n <= n + length toks)%nat.
Proof.
  induction toks as [|t toks IH]; intros n; simpl; [lia|].
  destruct (includes hay t); [specialize (IH (n + 1)%nat)|specialize (IH n)]; lia.
Qed.

Lemma countMatches_le hay toks : (countMatches hay toks <= length toks)%nat.
Proof. unfold countMatches. apply (countMatches_fold hay toks 0). Qed.

Lemma countMatches_empty_hay toks :
  Forall (fun t => t <> []) toks -> countMatches [] toks = 0%nat.
Proof.
  unfold countMatches. induction 1 as [|t toks Ht _ IH]; [done|].
  cbn [fold_left].
  destruct (includes [] t) eqn:Hinc; [|exact IH].
  by apply includes_nil in Hinc.
Qed.

Lemma Set_add_fold_length {A} `{EqDecision A} (l : list A) : forall acc,
  (length (fold_left Set_add l acc) <= length acc + length l)%nat.
Proof.
  induction l as [|a l IH]; intros acc; simpl; [lia|].
  etransitivity; [apply IH|]. unfold Set_add.
  case_bool_decide; rewrite ?length_app; simpl; lia.
Qed.

Lemma Set_from_length {A} `{EqDecision A} (l : list A) :
  (length (Set_from l) <= length l)%nat.
Proof. apply (Set_add_fold_length l []). Qed.

Lemma forallb_join sep parts (p : N -> bool) :
  forallb p sep = true -> Forall (fun part => forallb p part = true) parts ->
  forallb p (join sep parts) = true.
Proof.
  intros Hsep. induction 1 as [|part parts Hpart Hparts IH]; [done|].
  destruct parts as [|part' parts]; [exact Hpart|].
  change (join sep (part :: part' :: parts))
    with (part ++ sep ++ join sep (part' :: parts)).
  by rewrite !forallb_app, Hpart, Hsep, IH.
Qed.

Lemma map_join (f : N -> N) sep parts :
  List.map f (join sep parts) = join (List.map f sep) (List.map (List.map f) parts).
Proof.
  induction parts as [|part parts IH]; [done|].
  destruct parts as [|part' parts]; [done|].
  change (join sep (part :: part' :: parts))
    with (part ++ sep ++ join sep (part' :: parts)).
  rewrite !List.map_app, IH. reflexivity.
Qed.

Section EvidenceMore.
Context `{Host}.

(** X2. The score never counts more matches than there are distinct
    tokens, the distinct tokens are at most the tokens of the question, and
    without any chunk nothing matches. *)
Theorem evidenceScore_bounds question docs :
  (matchedTokens (evidenceScore question docs)
   <= totalTokens (evidenceScore question docs))%nat
  /\ (totalTokens (evidenceScore question docs)
      <= length (tokenize question))%nat
  /\ matchedTokens (evidenceScore question []) = 0%nat.
Proof.
  split_and!.
  - unfold evidenceScore.
    destruct (length (Set_from (tokenize question))) eqn:Hlen; simpl; [lia|].
    rewrite <- Hlen. apply countMatches_le.
  - rewrite evidenceScore_total. apply Set_from_length.
  - unfold evidenceScore.
    destruct (length (Set_from (tokenize question))) eqn:Hlen; simpl; [done|].
    change (haystack []) with (toLowerCase []).
    rewrite (toLowerCase_ascii []) by done. simpl.
    apply countMatches_empty_hay. apply Forall_forall. intros t Ht ->.
    apply Set_from_elem, list_elem_of_In, tokenize_length in Ht. simpl in Ht. lia.
Qed.

(** X3. The test on the number of matched tokens never decides alone: with
    at least 2 chunks (and fewer than 2^53 distinct tokens, as in every
    array of JavaScript) the gate opens exactly when the ratio is
    [>= 0.45], because no matched token gives the ratio 0. *)
Theorem gate_is_ratio_test question docs :
  (Z.of_nat (totalTokens (evidenceScore question docs)) < 2 ^ 53)%Z ->
  (2 <= length docs)%nat ->
  hasEnoughEvidence question docs
  = Number_ge (overlapRatio (evidenceScore question docs)) MIN_OVERLAP_RATIO.
Proof.
  intros Hbound Hlen.
  pose proof (evidenceScore_not_nan question docs Hbound) as Hnan.
  pose proof (evidenceScore_ratio question docs) as Hratio.
  unfold hasEnoughEvidence, MIN_MATCHED_TOKENS.
  rewrite (lt_min_ratio_ge _ Hnan).
  apply Nat.ltb_ge in Hlen as ->.
  set (s := evidenceScore question docs) in *.
  destruct (Nat.ltb_spec (matchedTokens s) 1) as [Hm|Hm].
  - assert (Hzero : matchedTokens s = 0%nat) by lia.
    rewrite Hzero in Hratio.
    destruct (totalTokens s) as [|n] eqn:Htot; cbn [Nat.eqb] in Hratio.
    + by rewrite Hratio.
    + unfold Number_of_nat in Hratio.
      destruct (Z.of_nat (S n)) as [|p|p] eqn:Hp; [lia| |lia].
      destruct (Number_of_Z_pos_finite p Hbound) as (mt & et & Hfin).
      rewrite Hfin in Hratio. by rewrite Hratio.
  - by destruct (Number_ge (overlapRatio s) MIN_OVERLAP_RATIO).
Qed.

Lemma haystack_ascii docs docs' :
  Forall2 (fun d d' =>
             forallb isAscii (pageContent d) = true
             /\ forallb isAscii (pageContent d') = true
             /\ List.map asciiLower (pageContent d)
                = List.map asciiLower (pageContent d')) docs docs' ->
  haystack docs = haystack docs'.
Proof.
  intros Hall. unfold haystack.
  assert (Hcut : forall s, forallb isAscii s = true ->
                           forallb isAscii (firstn 1600 s) = true).
  { intros s Hs. rewrite forallb_forall in *. intros c Hc.
    apply Hs, list_elem_of_In, (subseteq_take 1600), list_elem_of_In, Hc. }
  assert (Hparts : forall n,
    Forall (fun part => forallb isAscii part = true)
      (List.map (fun d => firstn 1600 (pageContent d)) (firstn n docs))
    /\ Forall (fun part => forallb isAscii part = true)
         (List.map (fun d => firstn 1600 (pageContent d)) (firstn n docs'))
    /\ List.map (List.map asciiLower)
         (List.map (fun d => firstn 1600 (pageContent d)) (firstn n docs))
       = List.map (List.map asciiLower)
           (List.map (fun d => firstn 1600 (pageContent d)) (firstn n docs'))).
  { induction Hall as [|d d' l l' (Hd & Hd' & Heq) _ IH]; intros [|n]; simpl;
      try (split_and!; done).
    destruct (IH n) as (IH1 & IH2 & IH3).
    split_and!; [constructor; auto|constructor; auto|].
    rewrite IH3. f_equal. by rewrite <- !firstn_map, Heq. }
  destruct (Hparts TOP_SOURCES_FOR_SCORING) as (H1 & H2 & H3).
  rewrite !toLowerCase_ascii by (by apply forallb_join).
  by rewrite !map_join, H3.
Qed.

(** X4. On ASCII text the score and the gate ignore letter case, in the
    question and in the chunks alike. *)
Theorem evidence_ignores_ascii_case question question' docs docs' :
  forallb isAscii question = true ->
  forallb isAscii question' = true ->
  List.map asciiLower question = List.map asciiLower question' ->
  Forall2 (fun d d' =>
             forallb isAscii (pageContent d) = true
             /\ forallb isAscii (pageContent d') = true
             /\ List.map asciiLower (pageContent d)
                = List.map asciiLower (pageContent d')) docs docs' ->
  evidenceScore question docs = evidenceScore question' docs'
  /\ hasEnoughEvidence question docs = hasEnoughEvidence question' docs'.
Proof.
  intros Hq Hq' Heq Hdocs.
  assert (Htok : tokenize question = tokenize question').
  { unfold tokenize. by rewrite !toLowerCase_ascii, Heq. }
  assert (Hscore : evidenceScore question docs = evidenceScore question' docs').
  { unfold evidenceScore. by rewrite Htok, (haystack_ascii _ _ Hdocs). }
  split; [exact Hscore|].
  unfold hasEnoughEvidence. by rewrite Hscore, (Forall2_length _ _ _ Hdocs).
Qed.

End EvidenceMore.

(** ** Context and citations *)

Lemma join_infix sep parts x :
  x ∈ parts -> exists pre post, join sep parts = pre ++ x ++ post.
Proof.
  induction parts as [|part parts IH]; [by intros ?%elem_of_nil|].
  intros [->|Hin]%elem_of_cons.
  - destruct parts as [|part' parts].
    + exists [], []. by rewrite app_nil_r.
    + by exists [], (sep ++ join sep (part' :: parts)).
  - destruct (IH Hin) as (pre & post & Heq).
    destruct parts as [|part' parts]; [by apply elem_of_nil in Hin|].
    exists (part ++ sep ++ pre), post.
    change (join sep (part :: part' :: parts))
      with (part ++ sep ++ join sep (part' :: parts)).
    rewrite Heq. by rewrite <- !app_assoc.
Qed.

Section ContextFacts.
Context `{Host}.

(** X5. The context holds, for the chunk of every rank, its whole block:
    the header with the 1-based rank and the citation label, a line break,
    and the raw content of the chunk, verbatim and untruncated. *)
Theorem buildContext_blocks docs i d :
  docs !! i = Some d ->
  includes (buildContext docs)
    (str "Source " ++ decimal (N.of_nat (i + 1)) ++ str " " ++ citeOf d
     ++ [10] ++ pageContent d) = true
  /\ includes (buildContext docs) (pageContent d) = true.
Proof.
  intros Hd. unfold buildContext.
  set (block := fun (i : nat) (d : Document) =>
         str "Source " ++ decimal (N.of_nat (i + 1)) ++ str " " ++ citeOf d
         ++ [10] ++ pageContent d).
  assert (Hin : block i d ∈ imap block docs).
  { apply list_elem_of_lookup. exists i. by rewrite list_lookup_imap, Hd. }
  destruct (join_infix [10; 10] _ _ Hin) as (pre & post & ->).
  split; [apply includes_infix|].
  unfold block.
  replace (pre ++ (str "Source " ++ decimal (N.of_nat (i + 1)) ++ str " "
                   ++ citeOf d ++ [10] ++ pageContent d) ++ post)
    with ((pre ++ str "Source " ++ decimal (N.of_nat (i + 1)) ++ str " "
           ++ citeOf d ++ [10]) ++ pageContent d ++ post).
  - apply includes_infix.
  - by rewrite <- !app_assoc.
Qed.

(** X6. The label of the best-ranked chunk is always the first citation,
    and every citation is the label of a retrieved chunk. *)
Theorem citations_rank_first docs :
  (forall d rest, docs = d :: rest ->
     exists tail, citations docs = citeOf d :: tail)
  /\ Forall (fun c => exists d, d ∈ docs /\ c = citeOf d) (citations docs).
Proof.
  split.
  - intros d rest ->. unfold citations, extractCitations, Set_from.
    cbn [List.map fold_left]. rewrite (Set_add_new [] (citeOf d))
      by apply not_elem_of_nil.
    cbn [app]. rewrite (Set_add_fold _ [citeOf d] [citeOf d]) by done.
    by eexists.
  - apply Forall_forall. intros c Hc. unfold citations in Hc.
    apply (subseteq_take 5) in Hc. unfold extractCitations in Hc.
    apply Set_from_elem, list_elem_of_In, in_map_iff in Hc as (d & <- & Hd).
    exists d. split; [by apply list_elem_of_In|done].
Qed.

End ContextFacts.

(** ** More on one question of the CLI *)

Lemma forEach_log {A} (f : A -> jsstring) (l : list A) :
  forEach (fun c => consoleLog (f c)) l
  = (List.map (fun c => ConsoleLog (f c)) l, Normal tt).
Proof.
  induction l as [|c l IH]; [done|].
  cbn [forEach]. unfold mbind, IO_bind. rewrite IH. reflexivity.
Qed.

Section StepMore.
Context `{Host}.
Variable store : jsstring -> number -> completion (list Document).
Variable llm : jsstring -> jsstring -> completion jsstring.

Lemma processQuestion_grounded question k retrieved :
  store question k = Normal retrieved ->
  hasEnoughEvidence question retrieved = true ->
  processQuestion store llm question k
  = match llm systemPrompt (userPrompt question (buildContext retrieved)) with
    | Normal resp =>
        (groundedPrefix question k retrieved
         ++ [ ConsoleLog (trim resp); ConsoleLog []; ConsoleLog (str "[Citations]") ]
         ++ List.map (fun c => ConsoleLog (str "- " ++ c)) (citations retrieved)
         ++ [ ConsoleLog [] ],
         Normal tt)
    | Throw e => (groundedPrefix question k retrieved, Throw e)
    end.
Proof.
  intros Hstore Hgate.
  unfold processQuestion, similaritySearch, invoke.
  unfold mbind, IO_bind.
  rewrite Hstore, Hgate, forEach_log.
  by destruct (llm systemPrompt (userPrompt question (buildContext retrieved))).
Qed.

Lemma llmCalls_app t1 t2 : llmCalls (t1 ++ t2) = (llmCalls t1 + llmCalls t2)%nat.
Proof. unfold llmCalls. by rewrite List.filter_app, length_app. Qed.

Lemma llmCalls_logs {A} (f : A -> jsstring) (l : list A) :
  llmCalls (List.map (fun c => ConsoleLog (f c)) l) = 0%nat.
Proof. unfold llmCalls. by induction l. Qed.

Lemma consoleLines_app t1 t2 :
  consoleLines (t1 ++ t2) = consoleLines t1 ++ consoleLines t2.
Proof. unfold consoleLines. apply omap_app. Qed.

Lemma consoleLines_logs {A} (f : A -> jsstring) (l : list A) :
  consoleLines (List.map (fun c => ConsoleLog (f c)) l) = List.map f l.
Proof.
  unfold consoleLines. induction l as [|c l IH]; [done|].
  cbn [List.map omap list_omap]. by f_equal.
Qed.

(** X7. A question that passes the gate and is answered: the chat model is
    invoked exactly once, with the fixed system prompt and a user prompt
    built from the question and the context of the retrieved chunks; the
    console shows the three diagnostic lines, the progress line, the
    trimmed answer, and the citation section with one line per citation (at
    most 5). *)
Theorem grounded_step question k retrieved resp :
  store question k = Normal retrieved ->
  hasEnoughEvidence question retrieved = true ->
  llm systemPrompt (userPrompt question (buildContext retrieved)) = Normal resp ->
  processQuestion store llm question k
  = (groundedPrefix question k retrieved
     ++ [ ConsoleLog (trim resp); ConsoleLog []; ConsoleLog (str "[Citations]") ]
     ++ List.map (fun c => ConsoleLog (str "- " ++ c)) (citations retrieved)
     ++ [ ConsoleLog [] ],
     Normal tt)
  /\ llmCalls (fst (processQuestion store llm question k)) = 1%nat
  /\ consoleLines (fst (processQuestion store llm question k))
     = [ str "Retrieving sources...";
         retrievedLine retrieved;
         scoreLine (evidenceScore question retrieved);
         str "Generating answer...";
         trim resp;
         [];
         str "[Citations]" ]
       ++ List.map (fun c => str "- " ++ c) (citations retrieved)
       ++ [ [] ]
  /\ (length (citations retrieved) <= 5)%nat.
Proof.
  intros Hstore Hgate Hllm.
  rewrite (processQuestion_grounded _ _ _ Hstore Hgate), Hllm.
  split_and!; [reflexivity| | |].
  - cbn [fst]. rewrite !llmCalls_app, llmCalls_logs. reflexivity.
  - cbn [fst]. rewrite !consoleLines_app, consoleLines_logs. reflexivity.
  - unfold citations. rewrite length_take. lia.
Qed.

(** X8. A failure of a collaborator ends the step with that very failure.
    When the retrieval fails nothing but the progress line was written;
    when the chat model fails on a question that passed the gate, the step
    stops at the call: neither the refusal string nor a citation section is
    written. *)
Theorem external_failure_propagates question k :
  (forall e,
     store question k = Throw e ->
     processQuestion store llm question k
     = ([ ConsoleLog (str "Retrieving sources..."); SimilaritySearch question k ],
        Throw e))
  /\ (forall retrieved e,
        store question k = Normal retrieved ->
        hasEnoughEvidence question retrieved = true ->
        llm systemPrompt (userPrompt question (buildContext retrieved)) = Throw e ->
        processQuestion store llm question k
        = (groundedPrefix question k retrieved, Throw e)
        /\ (NO_EVIDENCE_MESSAGE
            ∉ consoleLines (fst (processQuestion store llm question k)))
        /\ (str "[Citations]"
            ∉ consoleLines (fst (processQuestion store llm question k)))).
Proof.
  split.
  - intros e Hstore. by apply processQuestion_store_fails.
  - intros retrieved e Hstore Hgate Hllm.
    rewrite (processQuestion_grounded _ _ _ Hstore Hgate), Hllm.
    split_and!; [reflexivity| |];
      cbn [fst groundedPrefix consoleLines omap list_omap];
      rewrite !elem_of_cons, elem_of_nil;
      intros [Heq|[Heq|[Heq|[Heq|[]]]]];
      apply (f_equal (hd 0)) in Heq; vm_compute in Heq; discriminate Heq.
Qed.

(** X9. Whatever the collaborators answer, one question costs at most one
    call of the chat model, and a call is made only after a retrieval that
    succeeded with chunks the gate accepts. *)
Theorem llm_calls_gated question k :
  (llmCalls (fst (processQuestion store llm question k)) <= 1)%nat
  /\ ((0 < llmCalls (fst (processQuestion store llm question k)))%nat ->
      exists retrieved,
        store question k = Normal retrieved
        /\ hasEnoughEvidence question retrieved = true).
Proof.
  destruct (store question k) as [retrieved|e] eqn:Hstore.
  - destruct (hasEnoughEvidence question retrieved) eqn:Hgate.
    + split; [|by exists retrieved].
      rewrite (processQuestion_grounded _ _ _ Hstore Hgate).
      destruct (llm systemPrompt (userPrompt question (buildContext retrieved)));
        cbn [fst].
      * rewrite !llmCalls_app, llmCalls_logs. unfold groundedPrefix, llmCalls.
        cbn [List.filter length]. lia.
      * unfold groundedPrefix, llmCalls. cbn [List.filter length]. lia.
    + rewrite (processQuestion_refused _ _ _ _ _ Hstore Hgate).
      unfold llmCalls. cbn [fst List.filter length]. split; lia.
  - rewrite (processQuestion_store_fails _ _ _ _ _ Hstore).
    unfold llmCalls. cbn [fst List.filter length]. split; lia.
Qed.

End StepMore.

(** ** The snippet of the search CLI *)

Lemma collapseRuns_length s : forall b,
  (length (collapseRuns b s) <= length s)%nat.
Proof.
  induction s as [|c s IH]; intros b; simpl; [lia|].
  pose proof (IH true). pose proof (IH false).
  destruct (isWhiteSpace c); [destruct b|]; simpl; lia.
Qed.

Lemma collapseRuns_singleSpaced s : forall b,
  singleSpaced b (collapseRuns b s) = true.
Proof.
  induction s as [|c s IH]; intros b; simpl; [done|].
  destruct (isWhiteSpace c) eqn:Hc.
  - destruct b; [apply IH|].
    cbn [singleSpaced]. change (isWhiteSpace 32) with true.
    cbn [negb andb]. rewrite N.eqb_refl. apply IH.
  - cbn [singleSpaced]. rewrite Hc. apply IH.
Qed.

Lemma singleSpaced_weaken s b :
  singleSpaced b s = true -> singleSpaced false s = true.
Proof.
  destruct s as [|c s]; simpl; [done|].
  destruct (isWhiteSpace c); [|done].
  rewrite !andb_true_iff. intros [[Hc _] Hs]. by rewrite Hc, Hs.
Qed.

Lemma singleSpaced_suffix pre : forall s b,
  singleSpaced b (pre ++ s) = true -> singleSpaced false s = true.
Proof.
  induction pre as [|c pre IH]; intros s b; cbn [app].
  - apply singleSpaced_weaken.
  - cbn [singleSpaced]. destruct (isWhiteSpace c).
    + rewrite !andb_true_iff. intros [_ Hs]. by apply IH in Hs.
    + apply IH.
Qed.

Lemma singleSpaced_prefix s post : forall b,
  singleSpaced b (s ++ post) = true -> singleSpaced b s = true.
Proof.
  induction s as [|c s IH]; intros b; cbn [app singleSpaced]; [done|].
  destruct (isWhiteSpace c).
  - rewrite !andb_true_iff. intros [Hc Hs]. split; [done|]. by apply IH in Hs.
  - apply IH.
Qed.

Lemma singleSpaced_fixed s : forall b,
  singleSpaced b s = true -> collapseRuns b s = s.
Proof.
  induction s as [|c s IH]; intros b; cbn [singleSpaced collapseRuns]; [done|].
  destruct (isWhiteSpace c).
  - rewrite !andb_true_iff, N.eqb_eq, negb_true_iff.
    intros [[-> ->] Hs]. by rewrite (IH true Hs).
  - intros Hs. by rewrite (IH false Hs).
Qed.

Lemma singleSpaced_plain s : forall b,
  singleSpaced b s = true ->
  Forall (fun c => isWhiteSpace c = true -> c = 32) s.
Proof.
  induction s as [|c s IH]; intros b; cbn [singleSpaced]; [by constructor|].
  destruct (isWhiteSpace c) eqn:Hc.
  - rewrite !andb_true_iff, N.eqb_eq. intros [[-> _] Hs].
    constructor; [done|]. by apply (IH true).
  - intros Hs. constructor; [congruence|]. by apply (IH false).
Qed.

Lemma singleSpaced_no_pair s : forall b l1 x y l2,
  singleSpaced b s = true -> s = l1 ++ x :: y :: l2 ->
  isWhiteSpace x && isWhiteSpace y = false.
Proof.
  intros b l1 x y l2 Hs ->.
  apply singleSpaced_suffix in Hs. cbn [singleSpaced] in Hs.
  destruct (isWhiteSpace x); [|done].
  destruct (isWhiteSpace y); [|done].
  rewrite !andb_true_iff in Hs. by destruct Hs as [_ [[_ ?] _]].
Qed.

(** Neither end of a trimmed string is white space. *)
Lemma trim_ends s :
  (forall c rest, trim s = c :: rest -> isWhiteSpace c = false)
  /\ (forall init c, trim s = init ++ [c] -> isWhiteSpace c = false).
Proof.
  unfold trim. split.
  - intros c rest Heq.
    destruct (dropWhile_suffix isWhiteSpace (rev (dropWhile isWhiteSpace s)))
      as (pre & Hr & _).
    apply (f_equal (@rev N)) in Hr.
    rewrite rev_involutive, rev_app_distr, Heq in Hr.
    by apply (dropWhile_head isWhiteSpace s c (rest ++ rev pre)).
  - intros init c Heq. apply (f_equal (@rev N)) in Heq.
    rewrite rev_involutive, rev_app_distr in Heq.
    by apply (dropWhile_head _ _ _ _ Heq).
Qed.

Lemma trim_fixed s :
  (forall c rest, s = c :: rest -> isWhiteSpace c = false) ->
  (forall init c, s = init ++ [c] -> isWhiteSpace c = false) ->
  trim s = s.
Proof.
  intros Hhead Hlast. unfold trim.
  rewrite (dropWhile_id isWhiteSpace s) by (destruct s; eauto).
  rewrite (dropWhile_id isWhiteSpace (rev s)); [apply rev_involutive|].
  destruct (rev s) as [|c r] eqn:Hr; [done|].
  apply (Hlast (rev r)). by rewrite <- (rev_involutive s), Hr.
Qed.

(** X10. A snippet is one line of at most 220 code units: its only
    white space is the plain space, never two in a row and never at either
    end. *)
Theorem snippet_shape content :
  (length (snippet content) <= 220)%nat
  /\ Forall (fun c => isWhiteSpace c = true -> c = 32) (snippet content)
  /\ (forall l1 x y l2,
        snippet content = l1 ++ x :: y :: l2 ->
        isWhiteSpace x && isWhiteSpace y = false)
  /\ (forall c rest, snippet content = c :: rest -> isWhiteSpace c = false)
  /\ (forall init c, snippet content = init ++ [c] -> isWhiteSpace c = false).
Proof.
  unfold snippet.
  set (collapsed := collapseRuns false (firstn 220 content)).
  assert (Hspaced : singleSpaced false (trim collapsed) = true).
  { destruct (trim_infix collapsed) as (pre & post & Hc & _).
    pose proof (collapseRuns_singleSpaced (firstn 220 content) false) as Hs.
    fold collapsed in Hs. rewrite Hc in Hs.
    by apply singleSpaced_suffix, singleSpaced_prefix in Hs. }
  split_and!.
  - etransitivity; [apply trim_length|].
    etransitivity; [apply collapseRuns_length|].
    rewrite length_take. lia.
  - by apply (singleSpaced_plain _ false).
  - intros l1 x y l2 Heq.
    exact (singleSpaced_no_pair _ false l1 x y l2 Hspaced Heq).
  - apply trim_ends.
  - apply trim_ends.
Qed.

(** X11. Taking the snippet of a snippet changes nothing. *)
Theorem snippet_idempotent content : snippet (snippet content) = snippet content.
Proof.
  destruct (snippet_shape content) as (Hlen & _ & _ & Hhead & Hlast).
  assert (Hspaced : singleSpaced false (snippet content) = true).
  { unfold snippet.
    destruct (trim_infix (collapseRuns false (firstn 220 content)))
      as (pre & post & Hc & _).
    pose proof (collapseRuns_singleSpaced (firstn 220 content) false) as Hs.
    rewrite Hc in Hs. by apply singleSpaced_suffix, singleSpaced_prefix in Hs. }
  unfold snippet at 1.
  rewrite take_ge by exact Hlen.
  rewrite (singleSpaced_fixed _ false Hspaced).
  by apply trim_fixed.
Qed.

(** ** The retrieval depth *)

Lemma Zpos_iter_xO d : forall p,
  Zpos (Pos.iter xO p d) = (Zpos p * 2 ^ Zpos d)%Z.
Proof.
  induction d as [|d IH] using Pos.peano_ind; intros p.
  - simpl. lia.
  - rewrite Pos.iter_succ, Pos2Z.inj_xO, IH, Pos2Z.inj_succ, Z.pow_succ_r by lia.
    lia.
Qed.

(** The number made from a positive integer below 2^53 denotes it
    exactly. *)
Lemma Number_of_Z_pos_exact p :
  (Zpos p < 2 ^ 53)%Z ->
  exists m e,
    Number_of_Z (Zpos p) = S754_finite false m e
    /\ (e <= 0)%Z /\ Zpos m = (Zpos p * 2 ^ (- e))%Z.
Proof.
  intros Hp. pose proof (digits2_pos_bound p Hp) as Hd.
  unfold Number_of_Z, binary_normalize, binary_round.
  assert (Hfexp : fexp prec emax (Zpos (digits2_pos p) + 0)
                  = (Zpos (digits2_pos p) - 53)%Z).
  { unfold fexp, emin, prec, emax. lia. }
  rewrite Hfexp. unfold shl_align.
  assert (Haux : forall mz ez,
    Zpos (digits2_pos mz) = 53%Z -> (-52 <= ez <= 0)%Z ->
    binary_round_aux prec emax false (Zpos mz) ez loc_Exact
    = S754_finite false mz ez).
  { intros mz ez Hdig Hez. unfold binary_round_aux, shr_fexp. simpl Zdigits2.
    rewrite Hdig.
    assert (Hsh : (fexp prec emax (53 + ez) - ez = 0)%Z)
      by (unfold fexp, emin, prec, emax; lia).
    rewrite Hsh. simpl. rewrite Hdig, Hsh. simpl.
    assert (Hle : (ez <=? emax - prec)%Z = true)
      by (apply Z.leb_le; unfold emax, prec; lia).
    by rewrite Hle. }
  destruct (Zpos (digits2_pos p) - 53 - 0)%Z as [|d|d] eqn:Hsub.
  - exists p, 0%Z. split_and!; [apply Haux; lia|lia|].
    change (2 ^ (- 0))%Z with 1%Z. lia.
  - lia.
  - exists (Pos.iter xO p d), (Zpos (digits2_pos p) - 53)%Z. split_and!.
    + apply Haux; [rewrite digits2_pos_iter_xO|]; lia.
    + lia.
    + rewrite Zpos_iter_xO. do 2 f_equal. lia.
Qed.

Lemma integerValue_of_Z_pos p :
  (Zpos p < 2 ^ 53)%Z -> integerValue (Number_of_Z (Zpos p)) = Some (Zpos p).
Proof.
  intros Hp. destruct (Number_of_Z_pos_exact p Hp) as (m & e & -> & He & Hm).
  unfold integerValue. destruct e as [|q|q]; [|lia|].
  - simpl. f_equal. change (2 ^ (- 0))%Z with 1%Z in Hm. lia.
  - change (- Zneg q)%Z with (Zpos q) in Hm.
    rewrite Z.land_ones, Z.shiftr_div_pow2, Hm by lia.
    rewrite Z.mod_mul, Z.div_mul by (apply Z.pow_nonzero; lia).
    reflexivity.
Qed.

Lemma shiftr_bound m d : (Zpos m < 2 ^ 53)%Z ->
  (0 <= Z.shiftr (Zpos m) (Zpos d) < 2 ^ 53)%Z.
Proof.
  intros Hm. rewrite Z.shiftr_div_pow2 by lia.
  assert (0 < 2 ^ Zpos d)%Z by (apply Z.pow_pos_nonneg; lia).
  split; [apply Z.div_pos; lia|].
  apply Z.le_lt_trans with (Zpos m); [|done].
  apply Z.div_le_upper_bound; [lia|]. nia.
Qed.

(** X12. The retrieval depth. An answer that does not parse to a finite
    number above 0 (not a number, an infinity, 0 as for the empty answer, a
    negative number) selects the default. Every other answer selects its
    integer part, which is a whole number not above the answer; in
    particular an answer strictly between 0 and 1 selects depth 0, not the
    default. (A finite number of binary64 has a mantissa below 2^53.) *)
Theorem topK_depth dflt :
  (forall kParsed, Number_isFinite kParsed = false -> topK dflt kParsed = dflt)
  /\ (forall s, topK dflt (S754_zero s) = dflt)
  /\ (forall m e, topK dflt (S754_finite true m e) = dflt)
  /\ (forall m e,
        (Zpos m < 2 ^ 53)%Z ->
        integerValue (topK dflt (S754_finite false m e))
        = Some (floorOfFinite m e)
        /\ (0 <= floorOfFinite m e)%Z
        /\ (forall d, e = Zneg d -> (Zpos m < 2 ^ Zpos d)%Z ->
              topK dflt (S754_finite false m e) = S754_zero false)).
Proof.
  split_and!.
  - intros kParsed Hk. unfold topK. by rewrite Hk.
  - by intros [].
  - done.
  - intros m e Hm.
    assert (Htop : topK dflt (S754_finite false m e)
                   = Math_floor (S754_finite false m e)) by done.
    rewrite Htop. unfold Math_floor, floorOfFinite.
    destruct e as [|q|q].
    + split_and!; [|apply Z.shiftl_nonneg; lia|done].
      unfold integerValue. simpl. by rewrite Z.shiftl_0_r.
    + split_and!; [done| |done]. apply Z.shiftl_nonneg. lia.
    + pose proof (shiftr_bound m q Hm) as [Hq0 Hq53].
      split_and!; [|done|].
      * destruct (Z.shiftr (Zpos m) (Zpos q)) as [|r|r] eqn:Hr; [done| |lia].
        by apply integerValue_of_Z_pos.
      * intros d [= <-] Hsmall.
        rewrite Z.shiftr_div_pow2, Z.div_small by lia. reflexivity.
Qed.

(** ** More on the metadata sanitizer *)

(** Induction on values through arrays and objects. *)
Lemma JSValue_nested_ind (P : JSValue -> Prop) :
  (forall value,
     match value with VArray _ | VObject _ => False | _ => True end -> P value) ->
  (forall items, Forall P items -> P (VArray items)) ->
  (forall props, Forall (fun kv => P (snd kv)) props -> P (VObject props)) ->
  forall value, P value.
Proof.
  intros Hbase Harr Hobj. fix IH 1.
  intros [ | | b | x | s | z | | | stack message | items | props ];
    try (apply Hbase; exact I).
  - apply Harr. induction items as [|x items IHitems]; constructor.
    + apply IH.
    + exact IHitems.
  - apply Hobj. induction props as [|kv props IHprops]; constructor.
    + apply IH.
    + exact IHprops.
Qed.

Section SanitizerMore.
Context `{Host}.

Lemma sanitizeValue_none value :
  sanitizeValue value = None <-> value = VUndefined.
Proof. by destruct value. Qed.

(** X13. What the sanitizer does to each key: a key is absent from the
    output exactly when it is [__proto__], absent from the input, or bound
    to [undefined]; a string, number, boolean or null is kept unchanged; no
    key is invented. *)
Theorem sanitize_entries (input : Meta) k :
  (sanitizeForChromaMetadata input !! k = None <->
     k = str "__proto__" \/ input !! k = None \/ input !! k = Some VUndefined)
  /\ (forall v,
        input !! k = Some v -> isPrimitive v = true -> k <> str "__proto__" ->
        sanitizeForChromaMetadata input !! k = Some v)
  /\ (is_Some (sanitizeForChromaMetadata input !! k) -> is_Some (input !! k)).
Proof.
  rewrite sanitize_lookup. split_and!.
  - case_bool_decide as Hk; [by split; [left|]|].
    destruct (input !! k) as [v|]; simpl.
    + rewrite sanitizeValue_none. split; [intros ->; by right; right|].
      intros [?|[?|[= ->]]]; done.
    + split; [by right; left|done].
  - intros v -> Hv Hk. rewrite bool_decide_eq_false_2 by done.
    simpl. unfold sanitizeValue. rewrite Hv. by destruct v.
  - case_bool_decide; [by intros [? ?]|].
    destruct (input !! k); [by eexists|by intros [? ?]].
Qed.

(** The predicate on the method alone, on the method below an array and an
    object, and on an object whose [toJSON] is not a function. *)
Lemma hasToJSON_examples :
  hasToJSON (VObject [(str "toJSON", VFunction)]) = true
  /\ hasToJSON
       (VArray [VObject [(str "c", VObject [(str "toJSON", VFunction)])]])
     = true
  /\ hasToJSON
       (VObject [(str "toJSON", VNumber (Number_of_Z 1)); (str "f", VFunction)])
     = false.
Proof. split_and!; reflexivity. Qed.



Lemma serializeElements_throws items :
  Forall (fun x => (exists e, SerializeJSONProperty x = Throw e)
                   <-> containsBigInt x = true) items ->
  (exists e, serializeElements SerializeJSONProperty items = Throw e)
  <-> existsb containsBigInt items = true.
Proof.
  induction 1 as [|x items Hx _ IH]; cbn [serializeElements existsb].
  - split; [by intros [? ?]|done].
  - rewrite orb_true_iff, <- Hx, <- IH.
    destruct (SerializeJSONProperty x) as [o|e].
    + destruct (serializeElements SerializeJSONProperty items) as [r|e'].
      * split; [by intros [? ?]|]. by intros [[? ?]|[? ?]].
      * split; [right|]; by eexists.
    + split; [left|]; by eexists.
Qed.

Lemma serializeMembers_throws props :
  Forall (fun kv => (exists e, SerializeJSONProperty (snd kv) = Throw e)
                    <-> containsBigInt (snd kv) = true) props ->
  (exists e, serializeMembers SerializeJSONProperty props = Throw e)
  <-> existsb (fun kv => containsBigInt (snd kv)) props = true.
Proof.
  induction 1 as [|[k x] props Hx _ IH]; cbn [serializeMembers existsb].
  - split; [by intros [? ?]|done].
  - cbn [snd] in Hx. rewrite orb_true_iff. cbn [snd]. rewrite <- Hx, <- IH.
    destruct (SerializeJSONProperty x) as [o|e].
    + destruct (serializeMembers SerializeJSONProperty props) as [r|e'].
      * split; [by intros [? ?]|]. by intros [[? ?]|[? ?]].
      * split; [right|]; by eexists.
    + split; [left|]; by eexists.
Qed.

Lemma stringify_throws value :
  (exists e, SerializeJSONProperty value = Throw e)
  <-> containsBigInt value = true.
Proof.
  induction value as [value Hbase|items IH|props IH] using JSValue_nested_ind.
  - destruct value; try done; simpl;
      try (split; [by intros [? ?]|done]).
    split; [done|]. by eexists.
  - cbn [SerializeJSONProperty containsBigInt].
    rewrite <- (serializeElements_throws items IH).
    destruct (serializeElements SerializeJSONProperty items).
    + split; by intros [? ?].
    + split; by eexists.
  - cbn [SerializeJSONProperty containsBigInt].
    rewrite <- (serializeMembers_throws props IH).
    destruct (serializeMembers SerializeJSONProperty props).
    + split; by intros [? ?].
    + split; by eexists.
Qed.

(** X16. On a value that holds no object with a [toJSON] method,
    [JSON.stringify] throws exactly when the value holds a BigInt at some
    depth, and those are the values [safeToString] renders as their type tag
    ("[object BigInt]", "[object Array]", "[object Object]"); an array or
    object without a BigInt is rendered as its JSON text. *)
Theorem safeToString_fallback value :
  hasToJSON value = false ->
  ((exists e, JSON_stringify value = Throw e) <-> containsBigInt value = true)
  /\ (containsBigInt value = true ->
      safeToString value = VString (objectToString value))
  /\ (containsBigInt value = false -> isObject value = true ->
      (forall stack message, value <> VError stack message) ->
      exists text,
        SerializeJSONProperty value = Normal (Some text)
        /\ safeToString value = VString text).
Proof.
  intros _. pose proof (stringify_throws value) as Hthrows.
  split_and!.
  - rewrite <- Hthrows. unfold JSON_stringify.
    destruct (SerializeJSONProperty value) as [[text|]|e];
      split; intros [e' He']; try done; by eexists.
  - intros Hbig. apply Hthrows in Hbig as [e He].
    destruct value; try done; unfold safeToString, JSON_stringify; by rewrite He.
  - intros Hbig Hobj Herr.
    assert (Hno : ~ exists e, SerializeJSONProperty value = Throw e).
    { rewrite Hthrows. congruence. }
    destruct value; try done.
    + by destruct (Herr stack message).
    + unfold safeToString, JSON_stringify. cbn [SerializeJSONProperty] in *.
      destruct (serializeElements SerializeJSONProperty items);
        [by eexists|destruct Hno; by eexists].
    + unfold safeToString, JSON_stringify. cbn [SerializeJSONProperty] in *.
      destruct (serializeMembers SerializeJSONProperty props);
        [by eexists|destruct Hno; by eexists].
Qed.

End SanitizerMore.

(** ** The loader *)

Lemma key_filename_source : str "filename" <> str "source".
Proof. intros Heq. vm_compute in Heq. discriminate Heq. Qed.

Lemma key_source_page : str "source" <> str "page".
Proof. intros Heq. vm_compute in Heq. discriminate Heq. Qed.

Lemma key_filename_proto : str "filename" <> str "__proto__".
Proof. intros Heq. vm_compute in Heq. discriminate Heq. Qed.

Lemma key_source_proto : str "source" <> str "__proto__".
Proof. intros Heq. vm_compute in Heq. discriminate Heq. Qed.

Lemma key_page_proto : str "page" <> str "__proto__".
Proof. intros Heq. vm_compute in Heq. discriminate Heq. Qed.

Lemma extractPdfPage_finite metadata page :
  extractPdfPage metadata = Some page -> Number_isFinite page = true.
Proof.
  unfold extractPdfPage. destruct (isObject _); [|done].
  destruct (objectProp _ _) as [ | | | x | | | | | | | ]; try done.
  destruct (Number_isFinite x) eqn:Hx; [|done]. by intros [= <-].
Qed.

Section LoaderFacts.
Context `{Host}.
Variable basename : jsstring -> jsstring.

(** Sanitizing a record of primitives without the key [__proto__] changes
    nothing. *)
Lemma sanitize_primitives (input : Meta) :
  (forall k v, input !! k = Some v -> isPrimitive v = true) ->
  input !! str "__proto__" = None ->
  sanitizeForChromaMetadata input = input.
Proof.
  intros Hprim Hproto. apply map_eq. intros k. rewrite sanitize_lookup.
  case_bool_decide as Hk; [by subst|].
  destruct (input !! k) as [v|] eqn:Hv; [|done]. simpl.
  pose proof (Hprim k v Hv) as Hp. by destruct v.
Qed.

Lemma normalized_lookup metadata k :
  normalized basename metadata !! k
  = if bool_decide (k = str "filename")
    then Some (VString (filenameOf basename metadata))
    else if bool_decide (k = str "source")
    then Some (VString (sourcePathOf metadata))
    else if bool_decide (k = str "page")
    then Some (match extractPdfPage metadata with
               | Some page => VNumber page
               | None => VNull
               end)
    else None.
Proof.
  unfold normalized.
  destruct (decide (k = str "filename")) as [->|Hf].
  { rewrite bool_decide_eq_true_2 by done. apply lookup_insert_eq. }
  rewrite (bool_decide_eq_false_2 _ Hf), lookup_insert_ne by (by apply not_eq_sym).
  destruct (decide (k = str "source")) as [->|Hs].
  { rewrite bool_decide_eq_true_2 by done. apply lookup_insert_eq. }
  rewrite (bool_decide_eq_false_2 _ Hs), lookup_insert_ne by (by apply not_eq_sym).
  destruct (decide (k = str "page")) as [->|Hp].
  { rewrite bool_decide_eq_true_2 by done. apply lookup_singleton_eq. }
  rewrite (bool_decide_eq_false_2 _ Hp). apply lookup_singleton_ne.
  by apply not_eq_sym.
Qed.

Lemma loader_metadata_schema_aux (d : RawDocument) :
  metadata (normalizeDocument basename d)
  = Some (normalized basename (rawMetadata d))
  /\ normalized basename (rawMetadata d) !! str "filename"
     = Some (VString (filenameOf basename (rawMetadata d)))
  /\ normalized basename (rawMetadata d) !! str "page"
     = Some (match extractPdfPage (rawMetadata d) with
             | Some page => VNumber page
             | None => VNull
             end).
Proof.
  split_and!.
  - unfold normalizeDocument. cbn [metadata]. f_equal.
    apply sanitize_primitives.
    + intros k v. rewrite normalized_lookup.
      repeat case_bool_decide; intros [= <-]; try done.
      by destruct (extractPdfPage (rawMetadata d)).
    + rewrite normalized_lookup.
      rewrite !bool_decide_eq_false_2; [done| | |].
      * apply not_eq_sym, key_page_proto.
      * apply not_eq_sym, key_source_proto.
      * apply not_eq_sym, key_filename_proto.
  - rewrite normalized_lookup. by rewrite bool_decide_eq_true_2.
  - rewrite normalized_lookup.
    rewrite bool_decide_eq_false_2 by apply key_page_filename.
    rewrite bool_decide_eq_false_2 by (apply not_eq_sym, key_source_page).
    by rewrite bool_decide_eq_true_2.
Qed.

(** X17. The metadata the loader stores is the record of exactly three
    keys, whatever the loader-specific metadata held: [filename] is a
    string, [source] is a string (empty when the source is missing or not a
    string), [page] is a finite number or null; the sanitizer leaves this
    record as it is. *)
Theorem loader_metadata_schema (d : RawDocument) :
  metadata (normalizeDocument basename d)
  = Some (normalized basename (rawMetadata d))
  /\ normalized basename (rawMetadata d) !! str "filename"
     = Some (VString (filenameOf basename (rawMetadata d)))
  /\ normalized basename (rawMetadata d) !! str "source"
     = Some (VString (sourcePathOf (rawMetadata d)))
  /\ (normalized basename (rawMetadata d) !! str "page" = Some VNull
      \/ exists page,
           normalized basename (rawMetadata d) !! str "page"
           = Some (VNumber page)
           /\ Number_isFinite page = true)
  /\ (forall k, k <> str "filename" -> k <> str "source" -> k <> str "page" ->
        normalized basename (rawMetadata d) !! k = None)
  /\ pageContent (normalizeDocument basename d) = rawContent d.
Proof.
  destruct (loader_metadata_schema_aux d) as (Hmeta & Hfile & _).
  split_and!; [exact Hmeta|exact Hfile| | | |].
  - rewrite normalized_lookup.
    rewrite bool_decide_eq_false_2 by (apply not_eq_sym, key_filename_source).
    by rewrite bool_decide_eq_true_2.
  - rewrite normalized_lookup.
    rewrite bool_decide_eq_false_2 by apply key_page_filename.
    rewrite bool_decide_eq_false_2 by (apply not_eq_sym, key_source_page).
    rewrite bool_decide_eq_true_2 by done.
    destruct (extractPdfPage (rawMetadata d)) as [page|] eqn:Hpage; [|by left].
    right. exists page. split; [done|]. by apply (extractPdfPage_finite _ _ Hpage).
  - intros k H1 H2 H3. rewrite normalized_lookup.
    by rewrite !bool_decide_eq_false_2.
  - done.
Qed.

(** X18. The citation of a loaded document is made of the file name the
    loader derived and of the page it extracted: the fallback of
    [formatCite] for a missing file name is never needed, and the label
    says "unknown" exactly when the loader did (source missing, not a
    string, or empty). *)
Theorem loaded_document_citation (d : RawDocument) :
  citeOf (normalizeDocument basename d)
  = str "[" ++ filenameOf basename (rawMetadata d)
    ++ match extractPdfPage (rawMetadata d) with
       | Some page => str " p." ++ Number_toString page
       | None => []
       end
    ++ str "]"
  /\ ((forall s, rawMetadata d !! str "source" = Some (VString s) -> s = []) ->
      filenameOf basename (rawMetadata d) = str "unknown")
  /\ (forall s, rawMetadata d !! str "source" = Some (VString s) -> s <> [] ->
      filenameOf basename (rawMetadata d) = basename s).
Proof.
  split_and!; cycle 1.
  { intros Hsrc. unfold filenameOf, sourcePathOf, getProp.
    destruct (rawMetadata d !! str "source") as [[]|]; try done.
    simpl. by rewrite (Hsrc s). }
  { intros s Hs Hne. unfold filenameOf, sourcePathOf, getProp. rewrite Hs.
    simpl. by destruct s. }
  destruct (loader_metadata_schema_aux d) as (Hmeta & Hfile & Hpage).
  unfold citeOf. rewrite Hmeta. cbn [default from_option id].
  unfold formatCite, getString, getNumber, getProp.
  rewrite Hfile, Hpage. cbn [default from_option id].
  destruct (extractPdfPage (rawMetadata d)) as [page|] eqn:Hp; [|done].
  rewrite (extractPdfPage_finite _ _ Hp). by rewrite <- !app_assoc.
Qed.

End LoaderFacts.

(** ** The ingest CLI *)

Section IngestFacts.
Context `{Host}.
Variable basename : jsstring -> jsstring.
Variable env : Env.
Variable deleteCollection : jsstring -> completion unit.
Variable loaderLoad : jsstring -> completion (list RawDocument).
Variable splitDocuments : list Document -> completion (list Document).
Variable addDocuments : list Document -> completion unit.

Lemma reset_cases :
  resetCollectionIfNeeded env deleteCollection
  = if ToBoolean (RESET_COLLECTION env) then
      match deleteCollection (CHROMA_COLLECTION env) with
      | Normal _ =>
          ([ DeleteCollection (CHROMA_COLLECTION env);
             IngestLog (str "Deleted collection: " ++ CHROMA_COLLECTION env) ],
           Normal tt)
      | Throw _ => ([DeleteCollection (CHROMA_COLLECTION env)], Normal tt)
      end
    else ([], Normal tt).
Proof.
  unfold resetCollectionIfNeeded.
  destruct (ToBoolean (RESET_COLLECTION env)); [|done]. cbn [negb].
  unfold swallow, ingestLog, mbind, Trace_bind.
  by destruct (deleteCollection (CHROMA_COLLECTION env)).
Qed.

Lemma reset_normal : snd (resetCollectionIfNeeded env deleteCollection) = Normal tt.
Proof.
  rewrite reset_cases.
  destruct (ToBoolean _); [|done]. by destruct (deleteCollection _).
Qed.

Lemma ingestMain_run :
  ingestMain basename env deleteCollection loaderLoad splitDocuments addDocuments
  = (fst (resetCollectionIfNeeded env deleteCollection)
     ++ fst (afterReset basename env loaderLoad splitDocuments addDocuments),
     snd (afterReset basename env loaderLoad splitDocuments addDocuments)).
Proof.
  unfold ingestMain. pose proof reset_normal as Hreset.
  destruct (resetCollectionIfNeeded env deleteCollection) as [t r].
  cbn [snd fst] in *. subst r.
  unfold afterReset, loadDocuments, ingestLog, summaryLines.
  unfold mbind at 1, Trace_bind.
  destruct (loaderLoad (DATA_DIR env)) as [raws|e]; [|reflexivity].
  unfold mbind, mret, Trace_bind, Trace_ret. cbn [app].
  destruct (normalizeDocuments basename raws) as [|doc docs] eqn:Hdocs;
    [reflexivity|].
  cbn [length Nat.eqb].
  destruct (splitDocuments (doc :: docs)) as [chunks|e]; [|reflexivity].
  destruct (addDocuments chunks) as [[]|e]; reflexivity.
Qed.

(** X19. The reset never fails and is guarded by the flag: when
    RESET_COLLECTION is falsy nothing is deleted; when it is truthy the
    collection is deleted once, a failure of the deletion is dropped, and
    the confirmation line is written only after a deletion that
    succeeded. *)
Theorem reset_guarded :
  snd (resetCollectionIfNeeded env deleteCollection) = Normal tt
  /\ (ToBoolean (RESET_COLLECTION env) = false ->
      fst (resetCollectionIfNeeded env deleteCollection) = [])
  /\ (ToBoolean (RESET_COLLECTION env) = true ->
      (forall e, deleteCollection (CHROMA_COLLECTION env) = Throw e ->
         fst (resetCollectionIfNeeded env deleteCollection)
         = [DeleteCollection (CHROMA_COLLECTION env)])
      /\ (deleteCollection (CHROMA_COLLECTION env) = Normal tt ->
          fst (resetCollectionIfNeeded env deleteCollection)
          = [ DeleteCollection (CHROMA_COLLECTION env);
              IngestLog (str "Deleted collection: " ++ CHROMA_COLLECTION env) ])).
Proof.
  split; [apply reset_normal|]. rewrite reset_cases. split.
  - by intros ->.
  - intros ->. split.
    + by intros e ->.
    + by intros ->.
Qed.

(** X20. With no document in the data directory the ingestion stops
    normally after saying so: nothing is split and the vector store is not
    touched. *)
Theorem ingest_no_documents :
  loaderLoad (DATA_DIR env) = Normal [] ->
  ingestMain basename env deleteCollection loaderLoad splitDocuments addDocuments
  = (fst (resetCollectionIfNeeded env deleteCollection)
     ++ [ LoaderLoad (DATA_DIR env);
          IngestLog (str "No documents found in: " ++ DATA_DIR env) ],
     Normal tt)
  /\ existsb touchesStore
       (fst (ingestMain basename env deleteCollection loaderLoad
               splitDocuments addDocuments)) = false.
Proof.
  intros Hload. rewrite ingestMain_run. unfold afterReset. rewrite Hload.
  cbn [normalizeDocuments List.map fst snd]. split; [done|].
  rewrite existsb_app. rewrite reset_cases.
  destruct (ToBoolean _); [|done]. by destruct (deleteCollection _).
Qed.

(** X21. The summary is all or nothing: "Ingest complete." is written
    exactly when documents were loaded, split and added to the vector store
    without a failure, and then the run ends normally with the number of
    documents and of chunks; a failure of the loader, the splitter or the
    store ends the run with that failure. *)
Theorem ingest_summary_iff :
  (str "Ingest complete."
   ∈ ingestLines
       (fst (ingestMain basename env deleteCollection loaderLoad
               splitDocuments addDocuments)))
  <-> (exists raws chunks,
         loaderLoad (DATA_DIR env) = Normal raws
         /\ raws <> []
         /\ splitDocuments (normalizeDocuments basename raws) = Normal chunks
         /\ addDocuments chunks = Normal tt
         /\ ingestMain basename env deleteCollection loaderLoad
              splitDocuments addDocuments
            = (fst (resetCollectionIfNeeded env deleteCollection)
               ++ [ LoaderLoad (DATA_DIR env);
                    SplitDocuments (normalizeDocuments basename raws);
                    AddDocuments chunks ]
               ++ summaryLines env (normalizeDocuments basename raws) chunks,
               Normal tt)).
Proof.
  rewrite ingestMain_run. cbn [fst].
  assert (Hreset : str "Ingest complete."
                   ∉ ingestLines (fst (resetCollectionIfNeeded env deleteCollection))).
  { rewrite reset_cases. destruct (ToBoolean _); [|by intros ?%elem_of_nil].
    destruct (deleteCollection _); cbn [fst ingestLines omap list_omap];
      [|by intros ?%elem_of_nil].
    intros Heq%list_elem_of_singleton.
    apply (f_equal (hd 0)) in Heq. vm_compute in Heq. discriminate Heq. }
  unfold ingestLines in *. rewrite omap_app, elem_of_app.
  unfold afterReset.
  destruct (loaderLoad (DATA_DIR env)) as [raws|e].
  2:{ split; [intros [?|?%elem_of_nil]; done|]. by intros (? & ? & ? & _). }
  destruct (normalizeDocuments basename raws) as [|doc docs] eqn:Hdocs.
  { split.
    - intros [?|Hin]; [done|]. cbn [fst omap list_omap] in Hin.
      apply list_elem_of_singleton, (f_equal (hd 0)) in Hin.
      vm_compute in Hin. discriminate Hin.
    - intros (raws' & chunks & [= <-] & Hne & _).
      destruct raws as [|raw raws]; [done|].
      unfold normalizeDocuments in Hdocs. cbn [List.map] in Hdocs.
      discriminate Hdocs. }
  cbn zeta.
  destruct (splitDocuments (doc :: docs)) as [chunks|e] eqn:Hsp.
  2:{ split; [intros [?|?%elem_of_nil]; done|].
      intros (raws' & chunks & [= <-] & _ & Hsplit & _).
      rewrite Hdocs in Hsplit. congruence. }
  destruct (addDocuments chunks) as [[]|e] eqn:Hadd.
  2:{ split; [intros [?|?%elem_of_nil]; done|].
      intros (raws' & chunks' & [= <-] & _ & Hsplit & Hadd' & _).
      rewrite Hdocs in Hsplit. congruence. }
  split; [intros _|intros _; right; cbn; by left].
  exists raws, chunks. split_and!; try done.
  - intros ->. unfold normalizeDocuments in Hdocs. cbn [List.map] in Hdocs.
      discriminate Hdocs.
  - by rewrite Hdocs.
  - rewrite Hdocs. reflexivity.
Qed.

(** X22. The collection is deleted at most once, before anything else
    happens, and never when RESET_COLLECTION is falsy. *)
Theorem deletion_first_and_guarded :
  (forall pre ev post,
     fst (ingestMain basename env deleteCollection loaderLoad
            splitDocuments addDocuments) = pre ++ ev :: post ->
     deletes ev = true -> pre = [])
  /\ (ToBoolean (RESET_COLLECTION env) = false ->
      existsb deletes
        (fst (ingestMain basename env deleteCollection loaderLoad
                splitDocuments addDocuments)) = false).
Proof.
  rewrite ingestMain_run. cbn [fst].
  assert (Hafter : existsb deletes
            (fst (afterReset basename env loaderLoad splitDocuments addDocuments))
          = false).
  { unfold afterReset. destruct (loaderLoad _); [|done].
    destruct (normalizeDocuments _ _); [done|]. cbn zeta.
    destruct (splitDocuments _); [|done]. by destruct (addDocuments _). }
  split.
  - intros pre ev post Heq Hev.
    assert (Hno : forall l, existsb deletes l = false ->
                            forall a b, l = a ++ ev :: b -> False).
    { intros l Hl a b ->. rewrite existsb_app in Hl. simpl in Hl.
      rewrite Hev, orb_true_r in Hl. discriminate Hl. }
    rewrite reset_cases in Heq.
    destruct (ToBoolean _); [|by destruct (Hno _ Hafter _ _ Heq)].
    destruct pre as [|first pre]; [done|exfalso].
    destruct (deleteCollection _); cbn [fst app] in Heq.
    + injection Heq as _ Heq. destruct pre as [|second pre].
      * injection Heq as <- _. discriminate Hev.
      * injection Heq as _ Heq. by destruct (Hno _ Hafter _ _ Heq).
    + injection Heq as _ Heq. by destruct (Hno _ Hafter _ _ Heq).
  - intros Hflag. rewrite existsb_app, Hafter, reset_cases, Hflag. reflexivity.
Qed.

End IngestFacts.

(** ** The interactive loop of the query CLI *)

Lemma list_pair_ind {A} (P : list A -> Prop) :
  P [] -> (forall x, P [x]) -> (forall x y l, P l -> P (x :: y :: l)) ->
  forall l, P l.
Proof.
  intros Hnil Hone Hstep l.
  assert (Hboth : P l /\ forall x, P (x :: l)).
  { induction l as [|y l [IH1 IH2]]; [by split|].
    split; [apply IH2|]. intros x. by apply Hstep. }
  apply Hboth.
Qed.

Lemma bind_Forall {E A B} (P : E -> Prop) (m : Trace E A) (f : A -> Trace E B) :
  Forall P (fst m) -> (forall a, Forall P (fst (f a))) ->
  Forall P (fst (m ≫= f)).
Proof.
  intros Hm Hf. destruct m as [t [a|e]]; unfold mbind, Trace_bind; [|done].
  specialize (Hf a). destruct (f a) as [t' r]. cbn [fst] in *.
  by apply Forall_app.
Qed.

Lemma bind_failsAt {E A B} critical (m : Trace E A) (f : A -> Trace E B) :
  failsAt critical m -> (forall a, failsAt critical (f a)) ->
  failsAt critical (m ≫= f).
Proof.
  intros Hm Hf e. destruct m as [t [a|e']]; unfold mbind, Trace_bind.
  - specialize (Hf a e). destruct (f a) as [t' r]. cbn [fst snd] in *.
    intros Hr. destruct (Hf Hr) as (t0 & ev & -> & Hev).
    exists (t ++ t0), ev. by rewrite app_assoc.
  - cbn [fst snd]. intros [= <-]. exact (Hm e' eq_refl).
Qed.

Section SessionFacts.
Context `{Host}.
Variable StringToNumber : jsstring -> number.
Variable store : nat -> jsstring -> number -> completion (list Document).
Variable llm : nat -> jsstring -> jsstring -> completion jsstring.

Lemma prompt_failsAt text : failsAt isExternalCall (prompt text).
Proof. by intros e. Qed.

Lemma ret_failsAt : failsAt isExternalCall (mret tt : Trace SessionEvent unit).
Proof. by intros e. Qed.

Lemma step_failsAt i question k :
  failsAt isExternalCall
    (liftStep (processQuestion (store i) (llm i) question k)).
Proof.
  intros e. unfold liftStep. cbn [fst snd].
  destruct (store i question k) as [retrieved|e'] eqn:Hstore.
  - destruct (hasEnoughEvidence question retrieved) eqn:Hgate.
    + rewrite (processQuestion_grounded _ _ _ _ _ Hstore Hgate).
      destruct (llm i systemPrompt _) as [resp|e'']; [done|].
      intros _. cbn [fst groundedPrefix List.map].
      by eexists [_; _; _; _; _], _.
    + by rewrite (processQuestion_refused _ _ _ _ _ Hstore Hgate).
  - rewrite (processQuestion_store_fails _ _ _ _ _ Hstore).
    intros _. cbn [fst List.map]. by eexists [_], _.
Qed.

Lemma turn_failsAt i question kInput :
  failsAt isExternalCall (turn StringToNumber store llm i question kInput).
Proof.
  unfold turn. apply bind_failsAt; [apply prompt_failsAt|].
  intros _. apply step_failsAt.
Qed.

Lemma questionLoop_failsAt lines : forall i,
  failsAt isExternalCall (questionLoop StringToNumber store llm i lines).
Proof.
  induction lines as [|q|q kInput rest IH] using list_pair_ind; intros i;
    cbn [questionLoop].
  - apply prompt_failsAt.
  - apply bind_failsAt; [apply prompt_failsAt|]. intros _.
    destruct (nonEmpty (trim q)); [|apply ret_failsAt].
    apply bind_failsAt; [apply turn_failsAt|]. intros _. apply prompt_failsAt.
  - apply bind_failsAt; [apply prompt_failsAt|]. intros _.
    destruct (nonEmpty (trim q)); [|apply ret_failsAt].
    apply bind_failsAt; [apply turn_failsAt|]. intros _. apply IH.
Qed.

Lemma questionLoop_open lines : forall i,
  Forall (fun ev => ev <> RlClose)
    (fst (questionLoop StringToNumber store llm i lines)).
Proof.
  assert (Hprompt : forall text,
            Forall (fun ev => ev <> RlClose) (fst (prompt text)))
    by (intros text; by repeat constructor).
  assert (Hturn : forall i question kInput,
            Forall (fun ev => ev <> RlClose)
              (fst (turn StringToNumber store llm i question kInput))).
  { intros i question kInput. unfold turn.
    apply bind_Forall; [apply Hprompt|]. intros _.
    unfold liftStep. cbn [fst]. apply Forall_forall.
    intros ev Hev. apply list_elem_of_In, in_map_iff in Hev as (x & <- & _). done. }
  induction lines as [|q|q kInput rest IH] using list_pair_ind; intros i;
    cbn [questionLoop].
  - apply Hprompt.
  - apply bind_Forall; [apply Hprompt|]. intros _.
    destruct (nonEmpty (trim q)); [|by constructor].
    apply bind_Forall; [apply Hturn|]. intros _. apply Hprompt.
  - apply bind_Forall; [apply Hprompt|]. intros _.
    destruct (nonEmpty (trim q)); [|by constructor].
    apply bind_Forall; [apply Hturn|]. intros _. apply IH.
Qed.

Lemma Trace_bind_assoc {E A B C} (m : Trace E A) (f : A -> Trace E B)
    (g : B -> Trace E C) :
  (m ≫= f) ≫= g = m ≫= (fun a => f a ≫= g).
Proof.
  destruct m as [t [a|e]]; unfold mbind, Trace_bind; [|done].
  destruct (f a) as [t' [b|e]]; [|done].
  destruct (g b) as [t'' r]. by rewrite app_assoc.
Qed.

(** A question that is empty after trimming, after any number of turns:
    the loop prompts for it and is left. *)
Lemma questionLoop_blank asked : forall i q rest,
  Forall (fun p => trim (fst p) <> []) asked ->
  trim q = [] ->
  questionLoop StringToNumber store llm i (typedLines asked ++ q :: rest)
  = (turns StringToNumber store llm i asked ;; prompt QUESTION_PROMPT).
Proof.
  induction asked as [|[q0 k0] more IH]; intros i q rest Hasked Hq.
  - cbn [typedLines flat_map app questionLoop turns]. by rewrite Hq.
  - apply Forall_cons in Hasked as [Hq0 Hmore]. cbn [fst] in Hq0.
    change (typedLines ((q0, k0) :: more) ++ q :: rest)
      with (q0 :: k0 :: (typedLines more ++ q :: rest)).
    cbn [questionLoop turns].
    assert (Hne : nonEmpty (trim q0) = true) by (by destruct (trim q0)).
    rewrite Hne, (IH (S i) q rest Hmore Hq).
    by rewrite !Trace_bind_assoc.
Qed.

(** X23. The readline interface is closed exactly once and last, however
    the session ends. A session that fails ends with the failure of a call
    to the vector store or the chat model: the failing call is the last
    event before the close, so no further question is prompted and nothing
    more is written. A question that is empty after trimming ends the
    session at once, with whatever lines follow left unread: as the first
    question, and as the question after any number of turns, where the
    session is those turns, the prompt for the question and the close. *)
Theorem session_end lines :
  (exists t,
     fst (queryMain StringToNumber store llm lines) = t ++ [RlClose]
     /\ Forall (fun ev => ev <> RlClose) t)
  /\ (forall e,
        snd (queryMain StringToNumber store llm lines) = Throw e ->
        exists t ev,
          fst (queryMain StringToNumber store llm lines) = t ++ [ev; RlClose]
          /\ isExternalCall ev = true)
  /\ (forall q rest,
        lines = q :: rest -> trim q = [] ->
        queryMain StringToNumber store llm lines
        = ([Prompt QUESTION_PROMPT; RlClose], Normal tt))
  /\ (forall asked q rest,
        lines = typedLines asked ++ q :: rest ->
        Forall (fun p => trim (fst p) <> []) asked ->
        trim q = [] ->
        (forall t,
           turns StringToNumber store llm 0 asked = (t, Normal tt) ->
           queryMain StringToNumber store llm lines
           = (t ++ [Prompt QUESTION_PROMPT; RlClose], Normal tt))
        /\ (forall t e,
              turns StringToNumber store llm 0 asked = (t, Throw e) ->
              queryMain StringToNumber store llm lines
              = (t ++ [RlClose], Throw e))).
Proof.
  unfold queryMain, finally. cbn [fst snd]. split_and!.
  - eexists. split; [reflexivity|apply questionLoop_open].
  - intros e He. destruct (questionLoop_failsAt lines 0 e He) as (t & ev & -> & Hev).
    exists t, ev. by rewrite <- app_assoc.
  - intros q rest -> Hq. destruct rest; cbn [questionLoop]; by rewrite Hq.
  - intros asked q rest -> Hasked Hq.
    rewrite (questionLoop_blank asked 0 q rest Hasked Hq).
    split.
    + intros t ->. unfold mbind, Trace_bind, prompt. cbn [fst snd].
      by rewrite <- app_assoc.
    + intros t e ->. reflexivity.
Qed.

End SessionFacts.

(** ** One query of the search CLI *)

Section SearchFacts.
Context `{Host}.
Variable store : jsstring -> number -> completion (list Document).

(** X24. One query of the search CLI writes the number of results, then
    one line per result in the order of the ranking, each made of the
    citation label and the snippet of the chunk, then an empty line; when
    the retrieval fails the query ends with that failure and writes
    nothing. *)
Theorem search_output query k :
  (forall results,
     store query k = Normal results ->
     searchQuery store query k
     = (SimilaritySearch query k
        :: ConsoleLog (str "Results: " ++ decimal (N.of_nat (length results)))
        :: List.map (fun r => ConsoleLog (resultLine r)) results
        ++ [ConsoleLog []],
        Normal tt)
     /\ length (consoleLines (fst (searchQuery store query k)))
        = (length results + 2)%nat)
  /\ (forall e,
        store query k = Throw e ->
        searchQuery store query k = ([SimilaritySearch query k], Throw e)).
Proof.
  split.
  - intros results Hstore.
    assert (Hrun : searchQuery store query k
      = (SimilaritySearch query k
         :: ConsoleLog (str "Results: " ++ decimal (N.of_nat (length results)))
         :: List.map (fun r => ConsoleLog (resultLine r)) results
         ++ [ConsoleLog []],
         Normal tt)).
    { unfold searchQuery, similaritySearch. unfold mbind, IO_bind.
      rewrite Hstore, forEach_log. reflexivity. }
    rewrite Hrun. split; [reflexivity|]. cbn [fst].
    change (SimilaritySearch query k
            :: ConsoleLog (str "Results: " ++ decimal (N.of_nat (length results)))
            :: List.map (fun r => ConsoleLog (resultLine r)) results
            ++ [ConsoleLog []])
      with ([SimilaritySearch query k;
             ConsoleLog (str "Results: " ++ decimal (N.of_nat (length results)))]
            ++ List.map (fun r => ConsoleLog (resultLine r)) results
            ++ [ConsoleLog []]).
    rewrite !consoleLines_app, consoleLines_logs, !length_app, List.length_map.
    cbn. lia.
  - intros e Hstore. unfold searchQuery, similaritySearch.
    unfold mbind, IO_bind. by rewrite Hstore.
Qed.

End SearchFacts.

(** ** The further properties at concrete inputs *)

Lemma gate_is_ratio_test_witness :
  hasEnoughEvidence (H:=asciiHost) boilingQuestion [boilingChunk; bareChunk]
  = Number_ge
      (overlapRatio
         (evidenceScore (H:=asciiHost) boilingQuestion [boilingChunk; bareChunk]))
      MIN_OVERLAP_RATIO.
Proof.
  apply (gate_is_ratio_test (H:=asciiHost) boilingQuestion [boilingChunk; bareChunk]).
  - vm_compute. reflexivity.
  - simpl. lia.
Defined.

Lemma evidence_ignores_ascii_case_witness :
  evidenceScore (H:=asciiHost) (str "BOILING Point of Water")
    [shoutedChunk; bareChunk]
  = evidenceScore (H:=asciiHost) (str "boiling point of water")
      [boilingChunk; bareChunk].
Proof.
  refine (proj1 (evidence_ignores_ascii_case (H:=asciiHost)
                   (str "BOILING Point of Water") (str "boiling point of water")
                   [shoutedChunk; bareChunk] [boilingChunk; bareChunk] _ _ _ _)).
  - vm_compute. reflexivity.
  - vm_compute. reflexivity.
  - vm_compute. reflexivity.
  - constructor; [split_and!; vm_compute; reflexivity|].
    constructor; [split_and!; vm_compute; reflexivity|constructor].
Defined.

Lemma buildContext_blocks_witness :
  includes (buildContext (H:=asciiHost) [boilingChunk; bareChunk])
    (str "Source 2 [unknown]" ++ [10] ++ str "no metadata here") = true.
Proof.
  refine (proj1 (buildContext_blocks (H:=asciiHost) [boilingChunk; bareChunk]
                   1 bareChunk _)).
  reflexivity.
Defined.

Lemma citations_rank_first_witness :
  exists tail,
    citations (H:=asciiHost) [bareChunk; boilingChunk; bareChunk]
    = str "[unknown]" :: tail.
Proof.
  refine (proj1 (citations_rank_first (H:=asciiHost)
                   [bareChunk; boilingChunk; bareChunk])
            bareChunk [boilingChunk; bareChunk] _).
  reflexivity.
Defined.

Lemma grounded_step_witness :
  llmCalls
    (fst (processQuestion (H:=asciiHost) (sampleStore [boilingChunk; bareChunk])
            sampleLlm boilingQuestion (Number_of_Z 8)))
  = 1%nat.
Proof.
  refine (proj1 (proj2 (grounded_step (H:=asciiHost)
                          (sampleStore [boilingChunk; bareChunk]) sampleLlm
                          boilingQuestion (Number_of_Z 8)
                          [boilingChunk; bareChunk]
                          (str " Water boils at 100 degrees celsius. ") _ _ _))).
  - reflexivity.
  - vm_compute. reflexivity.
  - reflexivity.
Defined.

Lemma external_failure_propagates_witness :
  processQuestion (H:=asciiHost) failingStore sampleLlm boilingQuestion
    (Number_of_Z 8)
  = ([ ConsoleLog (str "Retrieving sources...");
       SimilaritySearch boilingQuestion (Number_of_Z 8) ],
     Throw (str "ECONNREFUSED"))
  /\ snd (processQuestion (H:=asciiHost) (sampleStore [boilingChunk; bareChunk])
            failingLlm boilingQuestion (Number_of_Z 8))
     = Throw (str "rate limited").
Proof.
  split.
  - refine (proj1 (external_failure_propagates (H:=asciiHost) failingStore
                     sampleLlm boilingQuestion (Number_of_Z 8)) _ _).
    reflexivity.
  - destruct (proj2 (external_failure_propagates (H:=asciiHost)
                       (sampleStore [boilingChunk; bareChunk]) failingLlm
                       boilingQuestion (Number_of_Z 8))
                [boilingChunk; bareChunk] (str "rate limited"))
      as (Hrun & _).
    + reflexivity.
    + vm_compute. reflexivity.
    + reflexivity.
    + rewrite Hrun. reflexivity.
Defined.

Lemma llm_calls_gated_witness :
  exists retrieved,
    sampleStore [boilingChunk; bareChunk] boilingQuestion (Number_of_Z 8)
    = Normal retrieved
    /\ hasEnoughEvidence (H:=asciiHost) boilingQuestion retrieved = true.
Proof.
  refine (proj2 (llm_calls_gated (H:=asciiHost)
                   (sampleStore [boilingChunk; bareChunk]) sampleLlm
                   boilingQuestion (Number_of_Z 8)) _).
  vm_compute. lia.
Defined.

Lemma snippet_shape_witness :
  snippet (str "  hello   world " ++ [10; 10; 9] ++ str "foo  ")
  = str "hello world foo"
  /\ isWhiteSpace 104 = false.
Proof.
  split; [vm_compute; reflexivity|].
  destruct (snippet_shape (str "  hello   world " ++ [10; 10; 9] ++ str "foo  "))
    as (_ & _ & _ & Hhead & _).
  apply (Hhead 104 (str "ello world foo")).
  vm_compute. reflexivity.
Defined.

Lemma topK_depth_witness :
  integerValue (topK (Number_of_Z 8) threeAndHalf) = Some 3%Z
  /\ topK (Number_of_Z 8) (S754_finite false 4503599627370496 (-53))
     = S754_zero false.
Proof.
  destruct (topK_depth (Number_of_Z 8)) as (_ & _ & _ & Hfloor).
  split.
  - destruct (Hfloor 7881299347898368%positive (-51)%Z) as (Hint & _).
    + vm_compute. reflexivity.
    + exact Hint.
  - destruct (Hfloor 4503599627370496%positive (-53)%Z) as (_ & _ & Hsmall).
    + vm_compute. reflexivity.
    + apply (Hsmall 53%positive); [reflexivity|vm_compute; reflexivity].
Defined.

Lemma sanitize_entries_witness :
  sanitizeForChromaMetadata (H:=asciiHost)
    {[ str "a" := VNumber (Number_of_Z 1); str "u" := VUndefined ]} !! str "a"
  = Some (VNumber (Number_of_Z 1)).
Proof.
  refine (proj1 (proj2 (sanitize_entries (H:=asciiHost) _ (str "a"))) _ _ _ _).
  - vm_compute. reflexivity.
  - reflexivity.
  - intros Heq. vm_compute in Heq. discriminate Heq.
Defined.



Lemma safeToString_fallback_witness :
  safeToString (H:=asciiHost) (VObject [(str "n", VArray [VBigInt 10])])
  = VString (str "[object Object]").
Proof.
  refine (proj1 (proj2 (safeToString_fallback (H:=asciiHost)
                          (VObject [(str "n", VArray [VBigInt 10])]) _)) _);
    reflexivity.
Defined.

Lemma loader_metadata_schema_witness :
  normalized (afterLastSlash []) (rawMetadata samplePdfPage) !! str "loc" = None
  /\ normalized (afterLastSlash []) (rawMetadata samplePdfPage) !! str "pdf" = None.
Proof.
  destruct (loader_metadata_schema (H:=asciiHost) (afterLastSlash []) samplePdfPage)
    as (_ & _ & _ & _ & Hother & _).
  split; apply Hother; intros Heq; vm_compute in Heq; discriminate Heq.
Defined.

Lemma loaded_document_citation_witness :
  filenameOf (afterLastSlash []) (rawMetadata samplePdfPage) = str "a.pdf"
  /\ citeOf (H:=asciiHost) (normalizeDocument (H:=asciiHost) (afterLastSlash [])
                              samplePdfPage)
     = str "[a.pdf p.3]".
Proof.
  destruct (loaded_document_citation (H:=asciiHost) (afterLastSlash [])
              samplePdfPage) as (Hcite & _ & Hname).
  split.
  - rewrite (Hname (str "/data/a.pdf")); [vm_compute; reflexivity| |].
    + vm_compute. reflexivity.
    + intros Heq. vm_compute in Heq. discriminate Heq.
  - rewrite Hcite. vm_compute. reflexivity.
Defined.

Lemma reset_guarded_witness :
  resetCollectionIfNeeded (sampleEnv (VBoolean true)) missingCollection
  = ([DeleteCollection (str "docs")], Normal tt)
  /\ fst (resetCollectionIfNeeded (sampleEnv (VString (str "")))
            missingCollection) = [].
Proof.
  destruct (reset_guarded (sampleEnv (VBoolean true)) missingCollection)
    as (Hnormal & _ & Hon).
  destruct (reset_guarded (sampleEnv (VString (str ""))) missingCollection)
    as (_ & Hoff & _).
  split; [|apply Hoff; reflexivity].
  destruct (Hon eq_refl) as [Hfail _].
  apply injective_projections; [|exact Hnormal].
  apply (Hfail (str "collection not found")). reflexivity.
Defined.

Lemma ingest_no_documents_witness :
  ingestLines
    (fst (ingestMain (H:=asciiHost) (afterLastSlash []) (sampleEnv (VBoolean false))
            missingCollection (sampleLoader []) sampleSplitter sampleAdd))
  = [str "No documents found in: ./data"].
Proof.
  destruct (ingest_no_documents (H:=asciiHost) (afterLastSlash [])
              (sampleEnv (VBoolean false)) missingCollection (sampleLoader [])
              sampleSplitter sampleAdd) as [Hrun _].
  - reflexivity.
  - rewrite Hrun. vm_compute. reflexivity.
Defined.

Lemma ingest_summary_iff_witness :
  str "Ingest complete."
  ∈ ingestLines
      (fst (ingestMain (H:=asciiHost) (afterLastSlash [])
              (sampleEnv (VBoolean true)) missingCollection
              (sampleLoader [samplePdfPage]) sampleSplitter sampleAdd)).
Proof.
  apply (ingest_summary_iff (H:=asciiHost) (afterLastSlash [])
           (sampleEnv (VBoolean true)) missingCollection
           (sampleLoader [samplePdfPage]) sampleSplitter sampleAdd).
  eexists [samplePdfPage], _. split_and!; try reflexivity. done.
Defined.

Lemma deletion_first_and_guarded_witness :
  existsb deletes
    (fst (ingestMain (H:=asciiHost) (afterLastSlash [])
            (sampleEnv (VBoolean false)) missingCollection
            (sampleLoader [samplePdfPage]) sampleSplitter sampleAdd))
  = false.
Proof.
  refine (proj2 (deletion_first_and_guarded (H:=asciiHost) (afterLastSlash [])
                   (sampleEnv (VBoolean false)) missingCollection
                   (sampleLoader [samplePdfPage]) sampleSplitter sampleAdd) _).
  reflexivity.
Defined.

Lemma session_end_witness :
  queryMain (H:=asciiHost) (fun _ => S754_nan)
    (fun _ => sampleStore [recipeChunk; bareChunk]) (fun _ => sampleLlm)
    [boilingQuestion; str "3"; str "   "; meltingQuestion]
  = ([ Prompt QUESTION_PROMPT;
       Prompt TOPK_PROMPT;
       Step (ConsoleLog (str "Retrieving sources..."));
       Step (SimilaritySearch boilingQuestion (Number_of_Z 8));
       Step (ConsoleLog (str "Retrieved chunks: 2"));
       Step (ConsoleLog
               (str "Evidence score: matchedTokens=1, totalTokens=5, overlapRatio=0.200"));
       Step (ConsoleLog NO_EVIDENCE_MESSAGE);
       Step (ConsoleLog []) ]
     ++ [Prompt QUESTION_PROMPT; RlClose],
     Normal tt)
  /\ exists t ev,
       fst (queryMain (H:=asciiHost) (fun _ => S754_nan) (fun _ => failingStore)
              (fun _ => failingLlm) [boilingQuestion; str "3"])
       = t ++ [ev; RlClose]
       /\ isExternalCall ev = true.
Proof.
  split.
  - refine (proj1
              (proj2 (proj2 (proj2
                 (session_end (H:=asciiHost) (fun _ => S754_nan)
                    (fun _ => sampleStore [recipeChunk; bareChunk])
                    (fun _ => sampleLlm)
                    [boilingQuestion; str "3"; str "   "; meltingQuestion])))
                 [(boilingQuestion, str "3")] (str "   ") [meltingQuestion]
                 _ _ _) _ _).
    + reflexivity.
    + repeat constructor. intros Heq. vm_compute in Heq. discriminate Heq.
    + reflexivity.
    + vm_compute. reflexivity.
  - refine (proj1 (proj2 (session_end (H:=asciiHost) (fun _ => S754_nan)
                            (fun _ => failingStore) (fun _ => failingLlm)
                            [boilingQuestion; str "3"]))
              (str "ECONNREFUSED") _).
    reflexivity.
Defined.

Lemma search_output_witness :
  consoleLines
    (fst (searchQuery (H:=asciiHost) (sampleStore [boilingChunk; bareChunk])
            (str "boiling") (Number_of_Z 5)))
  = [ str "Results: 2";
      str "- [a.pdf p.3] water boils at 100 degrees celsius boiling point...";
      str "- [unknown] no metadata here...";
      [] ].
Proof.
  destruct (proj1 (search_output (H:=asciiHost)
                     (sampleStore [boilingChunk; bareChunk])
                     (str "boiling") (Number_of_Z 5))
              [boilingChunk; bareChunk]) as [Hrun _].
  - reflexivity.
  - rewrite Hrun. vm_compute. reflexivity.
Defined.
